(** * Employee-turnover dashboard: the session / fetch / fallback contract

    A shallow embedding of the client-side handlers of the Next.js
    frontend (the pages under [app/] and the dashboards under
    [components/]) together with the properties the specification states
    about them.

    Conventions of the embedding.
    - A JavaScript [number] that is finite is a rational [Q]; a literal of
      the source and a number of a response body are kept by their decimal
      digits and are read as the nearest binary64 number when they enter an
      arithmetic operation, whose result is rounded to binary64 in turn
      ([number], [fadd], [fmul], [fdiv]); comparisons are made on the
      values as they are kept.  [NaN] and the infinities have no
      counterpart among the numbers.
    - A string is a sequence of bytes.  It stands for the string of the
      program when all its characters are ASCII ([ascii_only]); the
      statements about [toLowerCase] and [slice] are made for such
      strings.
    - A value of type [any] (a parsed response body, the form object) is a
      [Json]; objects are finite maps from property names to values.
    - Browser state that outlives a handler is the [World]: the
      [localStorage] map and the [trace] of effects that leave the
      component (requests, navigations, alerts, console errors), oldest
      first.  React state is a record per component, threaded next to the
      world.
    - An [async] function is a computation in the monad [M]; [await] is
      sequencing, a rejected promise is the completion [Throw].  Whatever
      the outside answers (the network, [apiClient] of [lib/api], the
      clock, [Math.random]) is read from an [Env].
    - A call that the source does not await, and a [setTimeout] callback,
      are run to completion at the point where they are started and their
      completion is dropped.  Where something observable follows such a
      call in the same handler ([createEmployee]), the call is cut at its
      first [await]: what comes before runs on the spot, the rest after the
      handler has returned. *)

From Stdlib Require Import Ascii QArith Qround Qabs Qpower Lqa.
From stdpp Require Import gmap strings list pretty.

Local Open Scope string_scope.

(** ** Values *)

#[warnings="-register-all"]
Inductive Json : Type :=
| JNull
| JBool (b : bool)
| JNum (q : Q)
| JStr (s : string)
| JArr (items : list Json)
| JObj (props : gmap string Json).

(** [undefined] is the absence of a value: [option Json]. *)
Definition obj (kvs : list (string * Json)) : Json := JObj (list_to_map kvs).

(** [x.k] where [x] is neither [null] nor [undefined]: a property read never
    fails on a primitive or an array, it yields [undefined] (array indices
    and [length] are not needed here). *)
Definition prop (k : string) (x : Json) : option Json :=
  match x with
  | JObj m => m !! k
  | _ => None
  end.

(** JavaScript truthiness ([ToBoolean]). *)
Definition truthy (x : option Json) : bool :=
  match x with
  | None | Some JNull => false
  | Some (JBool b) => b
  | Some (JNum q) => negb (Qeq_bool q 0)
  | Some (JStr s) => negb (String.eqb s "")
  | Some (JArr _) | Some (JObj _) => true
  end.

(** [x || d] *)
Definition or_else (x : option Json) (d : Json) : Json :=
  match x with
  | Some v => if truthy x then v else d
  | None => d
  end.

(** What a rejected promise or a [throw] carries. *)
Inductive JsError : Type :=
| NetworkError (msg : string)
| ApiError (status : Z) (msg : string)
| TypeError (msg : string)
| SyntaxError (msg : string).

(** ** The world outside the components *)

Inductive Body : Type :=
| NoBody
| JsonBody (j : Json)
| FormBody (fields : list (string * string)).

Record Request : Type := mkRequest {
  req_method : string;
  req_url : string;
  req_headers : list (string * string);
  req_body : Body
}.

(** The result of [fetch]: it rejects only when no response arrives; a
    response of any status resolves.  [resp_json = None] is a body that
    [response.json()] cannot parse. *)
Inductive FetchReply : Type :=
| NoResponse (e : JsError)
| Response (status : Z) (resp_json : option Json).

Definition response_ok (status : Z) : bool :=
  (200 <=? status)%Z && (status <=? 299)%Z.

Inductive Event : Type :=
| EvFetch (r : Request)
| EvApiCall (method : string)
| EvLocationHref (href : string)
| EvRouterPush (path : string)
| EvAlert (msg : string)
| EvConsoleError (label : string).

Record World : Type := mkWorld {
  localStorage : gmap string string;
  trace : list Event
}.

Inductive Completion (A : Type) : Type :=
| Normal (a : A)
| Throw (e : JsError).
Arguments Normal {A} a.
Arguments Throw {A} e.

(** ** [lib/api]: the client the views import

    The module is not among the sources.  Its methods are taken as they are
    typed at their call sites: a promise of a DTO.  How the promise settles
    is decided outside ([settles]); while it runs the client may rewrite
    [localStorage] ([storage_effect]). *)
Record ApiCall (A : Type) : Type := mkApiCall {
  settles : Completion A;
  storage_effect : gmap string string -> gmap string string
}.
Arguments mkApiCall {A} _ _.
Arguments settles {A} _.
Arguments storage_effect {A} _.

Definition rejected {A} (c : ApiCall A) : bool :=
  match settles c with
  | Throw _ => true
  | Normal _ => false
  end.

(** *** DTOs, as the components declare them *)

Record DepartmentStats : Type := mkDepartmentStats {
  ds_department : string;
  ds_total_employees : Q;
  ds_employees_left : Q;
  ds_turnover_rate : Q;
  ds_avg_satisfaction : Q
}.

Record AnalyticsData : Type := mkAnalyticsData {
  total_employees : Q;
  employees_left : Q;
  turnover_rate : Q;
  high_risk_employees : Q;
  safe_employees : Q;
  department_stats : list DepartmentStats
}.

Record RiskDistribution : Type := mkRiskDistribution {
  rd_low : Q;
  rd_medium : Q;
  rd_high : Q;
  rd_critical : Q
}.

Record TurnoverByDepartment : Type := mkTurnoverByDepartment {
  tbd_department : string;
  tbd_turnover_rate : Q;
  tbd_employee_count : Q
}.

Record TurnoverBySalary : Type := mkTurnoverBySalary {
  tbs_salary_level : string;
  tbs_turnover_rate : Q;
  tbs_employee_count : Q
}.

Record SatisfactionDistribution : Type := mkSatisfactionDistribution {
  sd_satisfaction_range : string;
  sd_employee_count : Q;
  sd_turnover_rate : Q
}.

Record ProjectCountAnalysis : Type := mkProjectCountAnalysis {
  pca_project_count : Q;
  pca_employee_count : Q;
  pca_turnover_rate : Q;
  pca_avg_satisfaction : Q
}.

Record ClusteringAnalysis : Type := mkClusteringAnalysis {
  ca_cluster_id : Q;
  ca_cluster_name : string;
  ca_employee_count : Q;
  ca_avg_satisfaction : Q;
  ca_avg_evaluation : Q;
  ca_turnover_rate : Q
}.

Record Prediction : Type := mkPrediction {
  p_id : Q;
  p_employee_id : string;
  turnover_probability : Q;
  risk_zone : string;
  model_used : string;
  prediction_confidence : string;
  created_at : string;
  created_by : Q
}.

Record HighRiskEmployee : Type := mkHighRiskEmployee {
  hr_employee_id : string;
  hr_department : string;
  hr_turnover_probability : Q;
  hr_risk_zone : string;
  hr_last_evaluation : Q;
  hr_satisfaction_level : Q;
  hr_time_spend_company : Q
}.

Record SystemStatus : Type := mkSystemStatus {
  ss_status : string;
  ss_version : string;
  ss_uptime : string;
  ss_database_status : string;
  ss_ml_models_status : string;
  ss_last_model_training : string;
  ss_total_employees : Q;
  ss_total_predictions : Q;
  ss_system_health : string
}.

Record ModelTrainingResult : Type := mkModelTrainingResult {
  mt_status : string;
  mt_message : string;
  mt_models_trained : list string;
  mt_training_duration : string;
  mt_accuracy_scores : list (string * Q);
  mt_timestamp : string
}.

Record ApiClient : Type := mkApiClient {
  api_login : string -> string -> ApiCall Json;
  api_logout : ApiCall unit;
  api_getDashboardAnalytics : ApiCall AnalyticsData;
  api_getRiskDistribution : ApiCall RiskDistribution;
  api_getTurnoverByDepartment : ApiCall (list TurnoverByDepartment);
  api_getTurnoverBySalary : ApiCall (list TurnoverBySalary);
  api_getSatisfactionDistribution : ApiCall (list SatisfactionDistribution);
  api_getProjectCountAnalysis : ApiCall (list ProjectCountAnalysis);
  api_getClusteringAnalysis : ApiCall (list ClusteringAnalysis);
  api_predictEmployeeTurnover : gmap string Json -> ApiCall Prediction;
  api_getHighRiskPredictions : ApiCall (list HighRiskEmployee);
  api_getSystemStatus : ApiCall SystemStatus;
  api_trainModels : ApiCall ModelTrainingResult
}.

Record Env : Type := mkEnv {
  fetch_reply : Request -> FetchReply;
  apiClient : ApiClient;
  math_random : Q;
  date_now : Z;
  date_iso : string
}.

(** ** The handler monad *)

Record Outcome (S A : Type) : Type := mkOutcome {
  completion : Completion A;
  state : S;
  world : World
}.
Arguments mkOutcome {S A} _ _ _.
Arguments completion {S A} _.
Arguments state {S A} _.
Arguments world {S A} _.

Definition M (S A : Type) : Type := S -> World -> Outcome S A.

Definition ret {S A} (a : A) : M S A := fun s w => mkOutcome (Normal a) s w.

Definition throw {S A} (e : JsError) : M S A := fun s w => mkOutcome (Throw e) s w.

Definition bind {S A B} (c : M S A) (k : A -> M S B) : M S B :=
  fun s w =>
    match c s w with
    | mkOutcome (Normal a) s' w' => k a s' w'
    | mkOutcome (Throw e) s' w' => mkOutcome (Throw e) s' w'
    end.

Notation "x <-- c ;; k" := (bind c (fun x => k))
  (at level 20, c at level 99, k at level 200, only parsing).
Notation "c ;; k" := (bind c (fun _ => k))
  (at level 100, k at level 200, only parsing, right associativity).

(** [try { body } catch (error) { handler }] *)
Definition try_catch {S A} (body : M S A) (handler : JsError -> M S A) : M S A :=
  fun s w =>
    match body s w with
    | mkOutcome (Normal a) s' w' => mkOutcome (Normal a) s' w'
    | mkOutcome (Throw e) s' w' => handler e s' w'
    end.

(** [try { body } finally { fin }]: [fin] runs on both exits; the completion
    of [body] survives unless [fin] throws itself. *)
Definition try_finally {S A} (body : M S A) (fin : M S unit) : M S A :=
  fun s w =>
    match body s w with
    | mkOutcome c s' w' =>
        match fin s' w' with
        | mkOutcome (Normal _) s'' w'' => mkOutcome c s'' w''
        | mkOutcome (Throw e) s'' w'' => mkOutcome (Throw e) s'' w''
        end
    end.

Definition try_catch_finally {S A}
    (body : M S A) (handler : JsError -> M S A) (fin : M S unit) : M S A :=
  try_finally (try_catch body handler) fin.

(** A promise that nobody awaits: its effects happen, its completion is
    dropped. *)
Definition spawn {S A} (c : M S A) : M S unit :=
  fun s w =>
    match c s w with
    | mkOutcome _ s' w' => mkOutcome (Normal tt) s' w'
    end.

(** [setTimeout(callback, ms)] *)
Definition setTimeout {S A} (callback : M S A) (ms : Z) : M S unit := spawn callback.

(** A React state setter. *)
Definition set_state {S} (f : S -> S) : M S unit :=
  fun s w => mkOutcome (Normal tt) (f s) w.

Definition get_state {S} : M S S := fun s w => mkOutcome (Normal s) s w.

Definition emit {S} (e : Event) : M S unit :=
  fun s w => mkOutcome (Normal tt) s (mkWorld (localStorage w) (trace w ++ [e])).

(** *** [localStorage] *)

Definition getItem {S} (k : string) : M S (option string) :=
  fun s w => mkOutcome (Normal (localStorage w !! k)) s w.

Definition setItem {S} (k v : string) : M S unit :=
  fun s w => mkOutcome (Normal tt) s (mkWorld (<[k := v]> (localStorage w)) (trace w)).

Definition removeItem {S} (k : string) : M S unit :=
  fun s w => mkOutcome (Normal tt) s (mkWorld (delete k (localStorage w)) (trace w)).

(** [!token] for the value [getItem] returned: [null] and the empty string
    are falsy. *)
Definition no_token (t : option string) : bool :=
  match t with
  | None => true
  | Some s => String.eqb s ""
  end.

(** The template literal [`Bearer ${localStorage.getItem('token')}`]. *)
Definition bearer (t : option string) : string :=
  "Bearer " ++ default "null" t.

(** *** Effects that leave the page *)

Definition console_error {S} (label : string) (e : JsError) : M S unit :=
  emit (EvConsoleError label).

Definition alert {S} (msg : string) : M S unit := emit (EvAlert msg).

Definition location_href {S} (href : string) : M S unit := emit (EvLocationHref href).

Definition router_push {S} (path : string) : M S unit := emit (EvRouterPush path).

(** [await fetch(url, init)]: the call sends the request, the [await]
    takes what comes back. *)
Definition answered {S} (env : Env) (r : Request) : M S (Z * option Json) :=
  match fetch_reply env r with
  | NoResponse e => throw e
  | Response status body => ret (status, body)
  end.

Definition fetch {S} (env : Env) (r : Request) : M S (Z * option Json) :=
  emit (EvFetch r) ;;
  answered env r.

(** [await response.json()] *)
Definition response_json {S} (resp : Z * option Json) : M S Json :=
  match snd resp with
  | Some j => ret j
  | None => throw (SyntaxError "Unexpected token")
  end.

(** [data.k] on a parsed body: reading a property of [null] throws. *)
Definition member {S} (k : string) (data : Json) : M S (option Json) :=
  match data with
  | JNull => throw (TypeError "Cannot read properties of null")
  | _ => ret (prop k data)
  end.

(** [await apiClient.method(...)] *)
Definition call_api {S A} (name : string) (c : ApiCall A) : M S A :=
  emit (EvApiCall name) ;;
  fun s w =>
    mkOutcome (settles c) s (mkWorld (storage_effect c (localStorage w)) (trace w)).

Definition run {S A} (c : M S A) (s : S) (ls : gmap string string) : Outcome S A :=
  c s (mkWorld ls []).

Definition token_of (w : World) : option string := localStorage w !! "token".

(** Observations on a trace. *)
Definition is_request (e : Event) : bool :=
  match e with
  | EvFetch _ | EvApiCall _ => true
  | _ => false
  end.

Definition is_redirect (e : Event) : bool :=
  match e with
  | EvLocationHref _ | EvRouterPush _ => true
  | _ => false
  end.

Definition requests (t : list Event) : list Event := List.filter is_request t.
Definition redirects (t : list Event) : list Event := List.filter is_redirect t.

(** How a pair of promises settles as one: resolved when both are. *)
Definition pair_settled {A B} (a : Completion A) (b : Completion B) : Completion (A * B) :=
  match a with
  | Throw e => Throw e
  | Normal x =>
      match b with
      | Throw e => Throw e
      | Normal y => Normal (x, y)
      end
  end.

(** [Promise.all([a, b])]: both calls are started; the result rejects as
    soon as one of them does, and nothing of the other is kept.  With more
    than one rejection the error of the earlier array position is the one
    reported here (in a browser it is the earlier in time; the handlers
    below only log it). *)
Definition both {S A B} (a : M S A) (b : M S B) : M S (A * B) :=
  fun s w =>
    match a s w with
    | mkOutcome ca s1 w1 =>
        match b s1 w1 with
        | mkOutcome cb s2 w2 => mkOutcome (pair_settled ca cb) s2 w2
        end
    end.

(** A child component mounted inside a page: it starts from its initial
    state, its effect runs against the page's world, and the page keeps the
    child's state. *)
Definition mount_child {P S A} (init : S) (effect : M S A) (keep : S -> P -> P) : M P unit :=
  fun p w =>
    match effect init w with
    | mkOutcome _ c w' => mkOutcome (Normal tt) (keep c p) w'
    end.

(** [ToString] on a value that is written into a string slot.  The digits of
    a number are produced by [Number::toString], which is supplied. *)
Fixpoint js_toString (num : Q -> string) (j : Json) : string :=
  match j with
  | JNull => "null"
  | JBool true => "true"
  | JBool false => "false"
  | JNum q => num q
  | JStr s => s
  | JArr items =>
      String.concat ","
        (List.map (fun x => match x with JNull => "" | _ => js_toString num x end) items)
  | JObj _ => "[object Object]"
  end.

Definition js_toString_opt (num : Q -> string) (x : option Json) : string :=
  match x with
  | Some j => js_toString num j
  | None => "undefined"
  end.

(** [s.includes(sub)] *)
Fixpoint includes (sub s : string) : bool :=
  String.prefix sub s ||
  match s with
  | EmptyString => false
  | String _ rest => includes sub rest
  end.

(** A string all of whose characters are ASCII. *)
Fixpoint ascii_only (s : string) : bool :=
  match s with
  | EmptyString => true
  | String c rest => (N_of_ascii c <? 128)%N && ascii_only rest
  end.

(** [s.toLowerCase()] for a string of ASCII characters: the letters A to Z
    are lowered.  (Outside ASCII the function of the program also lowers
    the other cased letters; there the model leaves the bytes as they
    are.) *)
Definition lower_ascii (c : ascii) : ascii :=
  let n := N_of_ascii c in
  if (65 <=? n)%N && (n <=? 90)%N then ascii_of_N (n + 32) else c.

Fixpoint toLowerCase (s : string) : string :=
  match s with
  | EmptyString => EmptyString
  | String c rest => String (lower_ascii c) (toLowerCase rest)
  end.

(** [[...new Set(values)]]: the values in the order of their first
    occurrence. *)
Definition set_add (seen : list string) (x : string) : list string :=
  if decide (x ∈ seen) then seen else (seen ++ [x])%list.

Definition distinct (values : list string) : list string :=
  fold_left set_add values [].

(** [a < b] on numbers. *)
Definition Qlt_bool (a b : Q) : bool := negb (Qle_bool b a).

(** ** Arithmetic on numbers

    The numbers of the program are binary64.  [round64 x] is the binary64
    number nearest to [x], the one with the even significand when [x] is
    halfway between two (a result beyond the largest binary64 number, which
    the program holds as an infinity, is outside the model). *)

(** The integer nearest to [x], the even one of the two when [x] is halfway. *)
Definition round_half_even (x : Q) : Z :=
  let f := Qfloor x in
  match Qcompare (x - inject_Z f) (1 # 2) with
  | Lt => f
  | Gt => (f + 1)%Z
  | Eq => if Z.even f then f else (f + 1)%Z
  end.

(** For a positive [x], the [e] with [2^e <= x < 2^(e+1)]. *)
Definition exponent (x : Q) : Z :=
  let e := (Z.log2 (Qnum x) - Z.log2 (Zpos (Qden x)))%Z in
  if Qle_bool (2 ^ e) x then e else (e - 1)%Z.

(** 53 bits of significand; below [2^-1022] the spacing stays [2^-1074]. *)
Definition round64 (x : Q) : Q :=
  if Qeq_bool x 0 then 0%Q
  else
    let a := Qabs x in
    let ulp := (2 ^ Z.max (exponent a - 52) (-1074))%Q in
    let m := (inject_Z (round_half_even (a / ulp)) * ulp)%Q in
    if Qlt_bool x 0 then (- m)%Q else m.

(** The number a decimal literal, or the decimal text of a JSON number,
    denotes. *)
Definition number (decimal : Q) : Q := round64 decimal.

(** [a + b], [a * b] and [a / b] (for a [b] other than zero). *)
Definition fadd (a b : Q) : Q := round64 (number a + number b).
Definition fmul (a b : Q) : Q := round64 (number a * number b).
Definition fdiv (a b : Q) : Q := round64 (number a / number b).

(** ** [Navigation]: the top bar with the logout button

    The component follows [PredictionsDashboard] in
    [components/Predictions/PredictionsDashboard.tsx]. *)
Module Navigation.

Record User : Type := mkUser {
  id : Q;
  username : string;
  email : string;
  is_admin : bool
}.

Record State : Type := mkState {
  user : option User;
  isMenuOpen : bool
}.

Definition initial : State := mkState None false.

Definition setUser (u : option User) : M State unit :=
  set_state (fun s => mkState u (isMenuOpen s)).

(** [useEffect(() => { ... }, [])] *)
Definition effect : M State unit :=
  token <-- getItem "token" ;;
  if no_token token then ret tt
  else setUser (Some (mkUser 1 "admin" "admin@company.com" true)).

Definition handleLogout (env : Env) : M State unit :=
  try_catch
    (call_api "logout" (api_logout (apiClient env)) ;;
     removeItem "token" ;;
     setUser None ;;
     location_href "/login")
    (fun error =>
       console_error "Logout error:" error ;;
       (* Force logout even if API call fails *)
       removeItem "token" ;;
       setUser None ;;
       location_href "/login").

Record NavItem : Type := mkNavItem {
  name : string;
  href : string
}.

Definition navigation : list NavItem :=
  [ mkNavItem "Dashboard" "/";
    mkNavItem "Employees" "/employees";
    mkNavItem "Analytics" "/analytics";
    mkNavItem "Admin" "/admin" ].

Definition isActive (pathname href : string) : bool :=
  if String.eqb href "/" then String.eqb pathname "/"
  else String.prefix href pathname.

(** [if (!user) return null]: the bar is rendered for a user only. *)
Definition visible (s : State) : bool :=
  match user s with
  | Some _ => true
  | None => false
  end.

Definition active_items (pathname : string) : list NavItem :=
  List.filter (fun item => isActive pathname (href item)) navigation.

End Navigation.

(** ** [LoginPage] of [app/login/page.tsx] *)
Module LoginPage.

Record State : Type := mkState {
  email : string;
  password : string;
  loading : bool;
  error : string
}.

Definition initial : State := mkState "admin@company.com" "admin123" false "".

Definition setLoading (b : bool) : M State unit :=
  set_state (fun s => mkState (email s) (password s) b (error s)).

Definition setError (msg : string) : M State unit :=
  set_state (fun s => mkState (email s) (password s) (loading s) msg).

Definition handleLogin (env : Env) : M State unit :=
  setLoading true ;;
  setError "" ;;
  try_catch_finally
    (s <-- get_state ;;
     response <-- call_api "login" (api_login (apiClient env) (email s) (password s)) ;;
     (* Redirect to dashboard *)
     location_href "/dashboard")
    (fun error =>
       console_error "Login error:" error ;;
       setError "Invalid credentials. Using demo mode..." ;;
       (* Set a demo token for demo purposes *)
       setItem "token" "demo-token" ;;
       setTimeout (location_href "/dashboard") 1000)
    (setLoading false).

End LoginPage.

(** ** [LandingPage] of [components/LandingPage.tsx] *)
Module LandingPage.

Record State : Type := mkState {
  isLoginOpen : bool;
  loginData_username : string;
  loginData_password : string
}.

Definition initial : State := mkState false "" "".

Definition login_request (s : State) : Request :=
  mkRequest "POST" "http://localhost:8000/api/v1/auth/login"
    [("Content-Type", "application/x-www-form-urlencoded")]
    (FormBody [("username", loginData_username s); ("password", loginData_password s)]).

Definition handleLogin (env : Env) (num : Q -> string) : M State unit :=
  try_catch
    (s <-- get_state ;;
     response <-- fetch env (login_request s) ;;
     if response_ok (fst response) then
       data <-- response_json response ;;
       access_token <-- member "access_token" data ;;
       setItem "token" (js_toString_opt num access_token) ;;
       location_href "/dashboard"
     else
       alert "Invalid credentials. Please try again.")
    (fun error =>
       console_error "Login error:" error ;;
       alert "Login failed. Please try again.").

End LandingPage.

(** ** [AnalyticsDashboard] of [components/Dashboard/AnalyticsDashboard.tsx] *)
Module AnalyticsDashboard.

Record State : Type := mkState {
  analyticsData : option AnalyticsData;
  riskDistribution : option RiskDistribution;
  turnoverByDept : list TurnoverByDepartment;
  turnoverBySalary : list TurnoverBySalary;
  satisfactionDist : list SatisfactionDistribution;
  projectAnalysis : list ProjectCountAnalysis;
  clusteringAnalysis : list ClusteringAnalysis;
  loading : bool;
  activeTab : string
}.

Definition initial : State := mkState None None [] [] [] [] [] true "dashboard".

Definition setAnalyticsData (v : option AnalyticsData) : M State unit :=
  set_state (fun s => mkState v (riskDistribution s) (turnoverByDept s)
    (turnoverBySalary s) (satisfactionDist s) (projectAnalysis s)
    (clusteringAnalysis s) (loading s) (activeTab s)).

Definition setRiskDistribution (v : option RiskDistribution) : M State unit :=
  set_state (fun s => mkState (analyticsData s) v (turnoverByDept s)
    (turnoverBySalary s) (satisfactionDist s) (projectAnalysis s)
    (clusteringAnalysis s) (loading s) (activeTab s)).

Definition setTurnoverByDept (v : list TurnoverByDepartment) : M State unit :=
  set_state (fun s => mkState (analyticsData s) (riskDistribution s) v
    (turnoverBySalary s) (satisfactionDist s) (projectAnalysis s)
    (clusteringAnalysis s) (loading s) (activeTab s)).

Definition setTurnoverBySalary (v : list TurnoverBySalary) : M State unit :=
  set_state (fun s => mkState (analyticsData s) (riskDistribution s)
    (turnoverByDept s) v (satisfactionDist s) (projectAnalysis s)
    (clusteringAnalysis s) (loading s) (activeTab s)).

Definition setSatisfactionDist (v : list SatisfactionDistribution) : M State unit :=
  set_state (fun s => mkState (analyticsData s) (riskDistribution s)
    (turnoverByDept s) (turnoverBySalary s) v (projectAnalysis s)
    (clusteringAnalysis s) (loading s) (activeTab s)).

Definition setProjectAnalysis (v : list ProjectCountAnalysis) : M State unit :=
  set_state (fun s => mkState (analyticsData s) (riskDistribution s)
    (turnoverByDept s) (turnoverBySalary s) (satisfactionDist s) v
    (clusteringAnalysis s) (loading s) (activeTab s)).

Definition setClusteringAnalysis (v : list ClusteringAnalysis) : M State unit :=
  set_state (fun s => mkState (analyticsData s) (riskDistribution s)
    (turnoverByDept s) (turnoverBySalary s) (satisfactionDist s)
    (projectAnalysis s) v (loading s) (activeTab s)).

Definition setLoading (v : bool) : M State unit :=
  set_state (fun s => mkState (analyticsData s) (riskDistribution s)
    (turnoverByDept s) (turnoverBySalary s) (satisfactionDist s)
    (projectAnalysis s) (clusteringAnalysis s) v (activeTab s)).

(** The demo datasets of the [catch] block. *)
Definition demo_analyticsData : AnalyticsData :=
  mkAnalyticsData 14999 3571 0.238 1250 8500
    [ mkDepartmentStats "sales" 4140 1012 0.244 0.612;
      mkDepartmentStats "technical" 2720 512 0.188 0.678;
      mkDepartmentStats "support" 2229 355 0.159 0.698;
      mkDepartmentStats "IT" 1227 162 0.132 0.721;
      mkDepartmentStats "product_mng" 902 198 0.219 0.645;
      mkDepartmentStats "marketing" 858 183 0.213 0.652;
      mkDepartmentStats "RandD" 787 89 0.113 0.734;
      mkDepartmentStats "accounting" 767 134 0.175 0.689;
      mkDepartmentStats "hr" 739 123 0.166 0.692;
      mkDepartmentStats "management" 630 83 0.132 0.721 ].

Definition demo_riskDistribution : RiskDistribution :=
  mkRiskDistribution 8500 3249 2000 1250.

Definition demo_turnoverByDept : list TurnoverByDepartment :=
  [ mkTurnoverByDepartment "sales" 0.244 4140;
    mkTurnoverByDepartment "technical" 0.188 2720;
    mkTurnoverByDepartment "support" 0.159 2229;
    mkTurnoverByDepartment "IT" 0.132 1227;
    mkTurnoverByDepartment "product_mng" 0.219 902;
    mkTurnoverByDepartment "marketing" 0.213 858;
    mkTurnoverByDepartment "RandD" 0.113 787;
    mkTurnoverByDepartment "accounting" 0.175 767;
    mkTurnoverByDepartment "hr" 0.166 739;
    mkTurnoverByDepartment "management" 0.132 630 ].

Definition demo_turnoverBySalary : list TurnoverBySalary :=
  [ mkTurnoverBySalary "low" 0.267 7316;
    mkTurnoverBySalary "medium" 0.198 6446;
    mkTurnoverBySalary "high" 0.123 1237 ].

Definition demo_satisfactionDist : list SatisfactionDistribution :=
  [ mkSatisfactionDistribution "0.0-0.2" 1249 0.456;
    mkSatisfactionDistribution "0.2-0.4" 1874 0.389;
    mkSatisfactionDistribution "0.4-0.6" 3749 0.234;
    mkSatisfactionDistribution "0.6-0.8" 5624 0.156;
    mkSatisfactionDistribution "0.8-1.0" 2503 0.089 ].

(** Positional arguments follow the record: count, employees, turnover,
    satisfaction. *)
Definition demo_projectAnalysis : list ProjectCountAnalysis :=
  [ mkProjectCountAnalysis 2 3749 0.234 0.456;
    mkProjectCountAnalysis 3 5624 0.189 0.567;
    mkProjectCountAnalysis 4 3749 0.145 0.678;
    mkProjectCountAnalysis 5 1874 0.098 0.789;
    mkProjectCountAnalysis 6 3 0.067 0.890 ].

Definition demo_clusteringAnalysis : list ClusteringAnalysis :=
  [ mkClusteringAnalysis 1 "High Performers" 2503 0.789 0.856 0.089;
    mkClusteringAnalysis 2 "Stable Employees" 5624 0.567 0.634 0.156;
    mkClusteringAnalysis 3 "At Risk" 3749 0.456 0.423 0.234;
    mkClusteringAnalysis 4 "Critical Risk" 3123 0.234 0.312 0.456 ].

Definition fan_out (env : Env) :
    M State (AnalyticsData * RiskDistribution * list TurnoverByDepartment *
             list TurnoverBySalary * list SatisfactionDistribution *
             list ProjectCountAnalysis * list ClusteringAnalysis) :=
  let api := apiClient env in
  both (both (both (both (both (both
    (call_api "getDashboardAnalytics" (api_getDashboardAnalytics api))
    (call_api "getRiskDistribution" (api_getRiskDistribution api)))
    (call_api "getTurnoverByDepartment" (api_getTurnoverByDepartment api)))
    (call_api "getTurnoverBySalary" (api_getTurnoverBySalary api)))
    (call_api "getSatisfactionDistribution" (api_getSatisfactionDistribution api)))
    (call_api "getProjectCountAnalysis" (api_getProjectCountAnalysis api)))
    (call_api "getClusteringAnalysis" (api_getClusteringAnalysis api)).

Definition fetchAnalyticsData (env : Env) : M State unit :=
  try_catch_finally
    (setLoading true ;;
     (* Fetch all analytics data using apiClient *)
     results <-- fan_out env ;;
     let '(dashboardData, riskData, deptData, salaryData,
           satisfactionData, projectData, clusteringData) := results in
     setAnalyticsData (Some dashboardData) ;;
     setRiskDistribution (Some riskData) ;;
     setTurnoverByDept deptData ;;
     setTurnoverBySalary salaryData ;;
     setSatisfactionDist satisfactionData ;;
     setProjectAnalysis projectData ;;
     setClusteringAnalysis clusteringData)
    (fun error =>
       console_error "Error fetching analytics data:" error ;;
       (* Set demo data for demonstration purposes *)
       setAnalyticsData (Some demo_analyticsData) ;;
       (* Set demo data for other analytics *)
       setRiskDistribution (Some demo_riskDistribution) ;;
       setTurnoverByDept demo_turnoverByDept ;;
       setTurnoverBySalary demo_turnoverBySalary ;;
       setSatisfactionDist demo_satisfactionDist ;;
       setProjectAnalysis demo_projectAnalysis ;;
       setClusteringAnalysis demo_clusteringAnalysis)
    (setLoading false).

(** [useEffect(() => { fetchAnalyticsData(); }, [])] *)
Definition effect (env : Env) : M State unit := spawn (fetchAnalyticsData env).

(** Vocabulary for the statements about the fan-out: the seven resources
    of a state, their demo values, the calls in the order of the array and
    whether one of them rejects. *)
Definition resources (s : State) :=
  (analyticsData s, riskDistribution s, turnoverByDept s, turnoverBySalary s,
   satisfactionDist s, projectAnalysis s, clusteringAnalysis s).

Definition demo_resources :=
  (Some demo_analyticsData, Some demo_riskDistribution, demo_turnoverByDept,
   demo_turnoverBySalary, demo_satisfactionDist, demo_projectAnalysis,
   demo_clusteringAnalysis).

Definition seven_calls : list Event :=
  [ EvApiCall "getDashboardAnalytics"; EvApiCall "getRiskDistribution";
    EvApiCall "getTurnoverByDepartment"; EvApiCall "getTurnoverBySalary";
    EvApiCall "getSatisfactionDistribution"; EvApiCall "getProjectCountAnalysis";
    EvApiCall "getClusteringAnalysis" ].

(** How the promise of [Promise.all] settles. *)
Definition fan_out_completion (api : ApiClient) :=
  pair_settled (pair_settled (pair_settled (pair_settled (pair_settled (pair_settled
    (settles (api_getDashboardAnalytics api))
    (settles (api_getRiskDistribution api)))
    (settles (api_getTurnoverByDepartment api)))
    (settles (api_getTurnoverBySalary api)))
    (settles (api_getSatisfactionDistribution api)))
    (settles (api_getProjectCountAnalysis api)))
    (settles (api_getClusteringAnalysis api)).

(** What the seven calls, one after the other, make of the storage. *)
Definition fan_out_storage (api : ApiClient) (ls : gmap string string) :
    gmap string string :=
  storage_effect (api_getClusteringAnalysis api)
    (storage_effect (api_getProjectCountAnalysis api)
      (storage_effect (api_getSatisfactionDistribution api)
        (storage_effect (api_getTurnoverBySalary api)
          (storage_effect (api_getTurnoverByDepartment api)
            (storage_effect (api_getRiskDistribution api)
              (storage_effect (api_getDashboardAnalytics api) ls)))))).

Definition fan_out_rejected (api : ApiClient) : bool :=
  rejected (api_getDashboardAnalytics api) ||
  rejected (api_getRiskDistribution api) ||
  rejected (api_getTurnoverByDepartment api) ||
  rejected (api_getTurnoverBySalary api) ||
  rejected (api_getSatisfactionDistribution api) ||
  rejected (api_getProjectCountAnalysis api) ||
  rejected (api_getClusteringAnalysis api).

End AnalyticsDashboard.

(** ** [AdminDashboard] of [components/Admin/AdminDashboard.tsx]
       (the file [unnamed/part_007]) *)
Module AdminDashboard.

Record State : Type := mkState {
  systemStatus : option SystemStatus;
  trainingResult : option ModelTrainingResult;
  loading : bool;
  trainingInProgress : bool
}.

Definition initial : State := mkState None None false false.

Definition setSystemStatus (v : option SystemStatus) : M State unit :=
  set_state (fun s => mkState v (trainingResult s) (loading s) (trainingInProgress s)).

Definition setTrainingResult (v : option ModelTrainingResult) : M State unit :=
  set_state (fun s => mkState (systemStatus s) v (loading s) (trainingInProgress s)).

Definition setLoading (v : bool) : M State unit :=
  set_state (fun s => mkState (systemStatus s) (trainingResult s) v (trainingInProgress s)).

Definition setTrainingInProgress (v : bool) : M State unit :=
  set_state (fun s => mkState (systemStatus s) (trainingResult s) (loading s) v).

Definition demo_systemStatus : SystemStatus :=
  mkSystemStatus "online" "1.0.0" "2 days, 5 hours" "healthy" "loaded"
    "2024-01-01T00:00:00Z" 14999 2500 "healthy".

Definition demo_trainingResult (env : Env) : ModelTrainingResult :=
  mkModelTrainingResult "completed" "Models trained successfully with latest data"
    ["logistic_regression"; "random_forest"; "gradient_boosting"]
    "2 minutes 34 seconds"
    [("logistic_regression", 0.85%Q); ("random_forest", 0.92%Q); ("gradient_boosting", 0.89%Q)]
    (date_iso env).

Definition fetchSystemStatus (env : Env) : M State unit :=
  try_catch_finally
    (setLoading true ;;
     data <-- call_api "getSystemStatus" (api_getSystemStatus (apiClient env)) ;;
     setSystemStatus (Some data))
    (fun error =>
       console_error "Error fetching system status:" error ;;
       (* Set demo data if API fails *)
       setSystemStatus (Some demo_systemStatus))
    (setLoading false).

Definition trainModels (env : Env) : M State unit :=
  try_catch_finally
    (setTrainingInProgress true ;;
     data <-- call_api "trainModels" (api_trainModels (apiClient env)) ;;
     setTrainingResult (Some data) ;;
     (* Refresh system status after training *)
     setTimeout (spawn (fetchSystemStatus env)) 2000)
    (fun error =>
       console_error "Error training models:" error ;;
       (* Set demo training result if API fails *)
       setTrainingResult (Some (demo_trainingResult env)))
    (setTrainingInProgress false).

Definition effect (env : Env) : M State unit := spawn (fetchSystemStatus env).

Definition getHealthColor (health : string) : string :=
  if String.eqb health "healthy" then "text-green-600 bg-green-100"
  else if String.eqb health "warning" then "text-yellow-600 bg-yellow-100"
  else if String.eqb health "critical" then "text-red-600 bg-red-100"
  else "text-gray-600 bg-gray-100".

Definition getStatusColor (status : string) : string :=
  let lowered := toLowerCase status in
  if String.eqb lowered "online" || String.eqb lowered "healthy"
     || String.eqb lowered "active" then "text-green-600 bg-green-100"
  else if String.eqb lowered "warning" then "text-yellow-600 bg-yellow-100"
  else if String.eqb lowered "offline" || String.eqb lowered "error"
          || String.eqb lowered "critical" then "text-red-600 bg-red-100"
  else "text-gray-600 bg-gray-100".

End AdminDashboard.

(** ** [EmployeesDashboard] of [components/Employees/EmployeesDashboard.tsx]

    The component talks to the server with [fetch] directly; what comes back
    is used as parsed, so the resources are kept as [Json].  The search box
    and the two filters, which no handler reads or writes, are not part of
    [State]. *)
Module EmployeesDashboard.

Record State : Type := mkState {
  employees : Json;
  selectedEmployee : option Json;
  employeePredictions : Json;
  retentionStrategies : Json;
  loading : bool;
  activeTab : string;
  showAddForm : bool;
  formData : gmap string Json
}.

Definition initial_formData : gmap string Json :=
  list_to_map
    [ ("satisfaction_level", JNum 0.5);
      ("last_evaluation", JNum 0.5);
      ("number_project", JNum 2);
      ("average_monthly_hours", JNum 160);
      ("time_spend_company", JNum 2);
      ("work_accident", JNum 0);
      ("promotion_last_5years", JNum 0);
      ("department", JStr "sales");
      ("salary", JStr "low") ].

Definition initial : State :=
  mkState (JArr []) None (JArr []) (JArr []) false "list" false initial_formData.

Definition setEmployees (v : Json) : M State unit :=
  set_state (fun s => mkState v (selectedEmployee s) (employeePredictions s)
    (retentionStrategies s) (loading s) (activeTab s) (showAddForm s) (formData s)).

Definition setSelectedEmployee (v : option Json) : M State unit :=
  set_state (fun s => mkState (employees s) v (employeePredictions s)
    (retentionStrategies s) (loading s) (activeTab s) (showAddForm s) (formData s)).

Definition setEmployeePredictions (v : Json) : M State unit :=
  set_state (fun s => mkState (employees s) (selectedEmployee s) v
    (retentionStrategies s) (loading s) (activeTab s) (showAddForm s) (formData s)).

Definition setRetentionStrategies (v : Json) : M State unit :=
  set_state (fun s => mkState (employees s) (selectedEmployee s)
    (employeePredictions s) v (loading s) (activeTab s) (showAddForm s) (formData s)).

Definition setLoading (v : bool) : M State unit :=
  set_state (fun s => mkState (employees s) (selectedEmployee s)
    (employeePredictions s) (retentionStrategies s) v (activeTab s)
    (showAddForm s) (formData s)).

Definition setShowAddForm (v : bool) : M State unit :=
  set_state (fun s => mkState (employees s) (selectedEmployee s)
    (employeePredictions s) (retentionStrategies s) (loading s) (activeTab s)
    v (formData s)).

Definition setFormData (f : gmap string Json -> gmap string Json) : M State unit :=
  set_state (fun s => mkState (employees s) (selectedEmployee s)
    (employeePredictions s) (retentionStrategies s) (loading s) (activeTab s)
    (showAddForm s) (f (formData s))).

Definition authorized (method url : string) (token : option string) : Request :=
  mkRequest method url [("Authorization", bearer token)] NoBody.

Definition demo_employees : Json :=
  JArr
    [ obj [ ("employee_id", JStr "EMP001");
            ("satisfaction_level", JNum 0.38);
            ("last_evaluation", JNum 0.53);
            ("number_project", JNum 2);
            ("average_monthly_hours", JNum 157);
            ("time_spend_company", JNum 3);
            ("work_accident", JNum 0);
            ("promotion_last_5years", JNum 0);
            ("department", JStr "sales");
            ("salary", JStr "low");
            ("left", JNum 1);
            ("created_at", JStr "2024-01-01T00:00:00Z");
            ("updated_at", JStr "2024-01-01T00:00:00Z") ];
      obj [ ("employee_id", JStr "EMP002");
            ("satisfaction_level", JNum 0.80);
            ("last_evaluation", JNum 0.86);
            ("number_project", JNum 5);
            ("average_monthly_hours", JNum 262);
            ("time_spend_company", JNum 6);
            ("work_accident", JNum 0);
            ("promotion_last_5years", JNum 0);
            ("department", JStr "technical");
            ("salary", JStr "medium");
            ("left", JNum 0);
            ("created_at", JStr "2024-01-02T00:00:00Z");
            ("updated_at", JStr "2024-01-02T00:00:00Z") ] ].

Definition fetchEmployees (env : Env) : M State unit :=
  try_catch_finally
    (setLoading true ;;
     token <-- getItem "token" ;;
     response <-- fetch env
       (authorized "GET" "http://localhost:8000/api/v1/employees/" token) ;;
     data <-- response_json response ;;
     listed <-- member "employees" data ;;
     setEmployees (or_else listed (JArr [])))
    (fun error =>
       console_error "Error fetching employees:" error ;;
       (* Set demo data if API fails *)
       setEmployees demo_employees)
    (setLoading false).

Definition demo_selectedEmployee (employeeId : string) : Json :=
  obj [ ("employee_id", JStr employeeId);
        ("satisfaction_level", JNum 0.45);
        ("last_evaluation", JNum 0.65);
        ("number_project", JNum 3);
        ("average_monthly_hours", JNum 180);
        ("time_spend_company", JNum 2);
        ("work_accident", JNum 0);
        ("promotion_last_5years", JNum 0);
        ("department", JStr "sales");
        ("salary", JStr "medium");
        ("left", JNum 0) ].

Definition demo_employeePredictions (employeeId : string) : Json :=
  JArr
    [ obj [ ("employee_id", JStr employeeId);
            ("turnover_probability", JNum 0.35);
            ("risk_zone", JStr "medium");
            ("prediction_date", JStr "2024-01-01T00:00:00Z");
            ("model_used", JStr "random_forest");
            ("confidence_score", JNum 0.85) ] ].

Definition demo_retentionStrategies (employeeId : string) : Json :=
  JArr
    [ obj [ ("strategy_id", JStr ("STRAT_" ++ employeeId ++ "_001"));
            ("employee_id", JStr employeeId);
            ("risk_zone", JStr "medium");
            ("strategy_type", JStr "Career Development");
            ("description",
             JStr "Create a career development plan with clear promotion path");
            ("estimated_cost", JNum 5000);
            ("success_probability", JNum 0.7);
            ("status", JStr "pending");
            ("created_at", JStr "2024-01-01T00:00:00Z") ] ].

Definition fetchEmployeeDetails (env : Env) (employeeId : string) : M State unit :=
  try_catch_finally
    (setLoading true ;;
     (* Fetch employee details *)
     token <-- getItem "token" ;;
     employeeResponse <-- fetch env
       (authorized "GET" ("http://localhost:8000/api/v1/employees/" ++ employeeId) token) ;;
     employeeData <-- response_json employeeResponse ;;
     setSelectedEmployee (Some employeeData) ;;
     (* Fetch employee predictions *)
     token <-- getItem "token" ;;
     predictionsResponse <-- fetch env
       (authorized "GET"
          ("http://localhost:8000/api/v1/predictions/employee/" ++ employeeId) token) ;;
     predictionsData <-- response_json predictionsResponse ;;
     setEmployeePredictions predictionsData ;;
     (* Fetch retention strategies *)
     token <-- getItem "token" ;;
     strategiesResponse <-- fetch env
       (authorized "GET"
          ("http://localhost:8000/api/v1/employees/" ++ employeeId
             ++ "/retention-strategies") token) ;;
     strategiesData <-- response_json strategiesResponse ;;
     strategies <-- member "strategies" strategiesData ;;
     setRetentionStrategies (or_else strategies (JArr [])))
    (fun error =>
       console_error "Error fetching employee details:" error ;;
       (* Set demo data if API fails *)
       setSelectedEmployee (Some (demo_selectedEmployee employeeId)) ;;
       setEmployeePredictions (demo_employeePredictions employeeId) ;;
       setRetentionStrategies (demo_retentionStrategies employeeId))
    (setLoading false).

(** [fetchEmployees] in two parts, for the caller that does not await it.
    The call runs the function up to its first [await], that is until the
    request is sent; the rest runs when the answer is there. *)
Definition fetchEmployees_started : M State Request :=
  setLoading true ;;
  token <-- getItem "token" ;;
  emit (EvFetch (authorized "GET" "http://localhost:8000/api/v1/employees/" token)) ;;
  ret (authorized "GET" "http://localhost:8000/api/v1/employees/" token).

Definition fetchEmployees_resumed (env : Env) (sent : Request) : M State unit :=
  try_catch_finally
    (response <-- answered env sent ;;
     data <-- response_json response ;;
     listed <-- member "employees" data ;;
     setEmployees (or_else listed (JArr [])))
    (fun error =>
       console_error "Error fetching employees:" error ;;
       (* Set demo data if API fails *)
       setEmployees demo_employees)
    (setLoading false).

(** The body of the POST:
    [JSON.stringify({...formData, employee_id: `EMP${Date.now()}`, left: 0})].
    The form is kept by the JSON that [JSON.stringify] makes of it: a number
    field that was emptied, which the program holds as [NaN], is held as
    [JNull], the [null] that is sent for it. *)
Definition create_body (env : Env) (form : gmap string Json) : Json :=
  JObj (<["left" := JNum 0]>
         (<["employee_id" := JStr ("EMP" ++ pretty (date_now env))]> form)).

Definition create_request (env : Env) (form : gmap string Json)
    (token : option string) : Request :=
  mkRequest "POST" "http://localhost:8000/api/v1/employees/"
    [("Content-Type", "application/json"); ("Authorization", bearer token)]
    (JsonBody (create_body env form)).

(** [fetchEmployees()] is not awaited: its request goes out before the
    alert, and its answer is handled after the handler has returned. *)
Definition createEmployee (env : Env) : M State unit :=
  listing <-- try_catch_finally
    (setLoading true ;;
     s <-- get_state ;;
     token <-- getItem "token" ;;
     response <-- fetch env (create_request env (formData s) token) ;;
     if response_ok (fst response) then
       setShowAddForm false ;;
       setFormData (fun _ => initial_formData) ;;
       sent <-- fetchEmployees_started ;;
       alert "Employee created successfully!" ;;
       ret (Some sent)
     else
       alert "Failed to create employee. Please try again." ;;
       ret None)
    (fun error =>
       console_error "Error creating employee:" error ;;
       alert "Error creating employee. Please try again." ;;
       ret None)
    (setLoading false) ;;
  match listing with
  | Some sent => spawn (fetchEmployees_resumed env sent)
  | None => ret tt
  end.

(** [onChange] of every field of the Add Employee tab. *)
Definition handleFormChange (field : string) (value : Json) : M State unit :=
  setFormData (fun prev => <[field := value]> prev).

(** The button of the Add Employee tab: [onClick={createEmployee}],
    [disabled={loading}]. *)
Definition click_create (env : Env) : M State unit :=
  s <-- get_state ;;
  if loading s then ret tt else createEmployee env.

Definition effect (env : Env) : M State unit := spawn (fetchEmployees env).

Definition getRiskColor (risk : string) : string :=
  if String.eqb risk "low" then "bg-green-100 text-green-800"
  else if String.eqb risk "medium" then "bg-yellow-100 text-yellow-800"
  else if String.eqb risk "high" then "bg-orange-100 text-orange-800"
  else if String.eqb risk "critical" then "bg-red-100 text-red-800"
  else "bg-gray-100 text-gray-800".

Definition getStatusColor (status : string) : string :=
  if String.eqb status "pending" then "bg-yellow-100 text-yellow-800"
  else if String.eqb status "in_progress" then "bg-blue-100 text-blue-800"
  else if String.eqb status "completed" then "bg-green-100 text-green-800"
  else if String.eqb status "cancelled" then "bg-red-100 text-red-800"
  else "bg-gray-100 text-gray-800".

(** The rows of the list, as the interface [Employee] declares them. *)
Record Employee : Type := mkEmployee {
  employee_id : string;
  satisfaction_level : Q;
  last_evaluation : Q;
  number_project : Q;
  average_monthly_hours : Q;
  time_spend_company : Q;
  work_accident : Q;
  promotion_last_5years : Q;
  department : string;
  salary : string;
  has_left : option Q;
  created_at : option string;
  updated_at : option string
}.

(** The callback of [employees.filter]. *)
Definition matches (searchTerm filterDepartment filterSalary : string)
    (employee : Employee) : bool :=
  let matchesSearch :=
    includes (toLowerCase searchTerm) (toLowerCase (employee_id employee)) ||
    includes (toLowerCase searchTerm) (toLowerCase (department employee)) in
  let matchesDepartment :=
    String.eqb filterDepartment "" || String.eqb (department employee) filterDepartment in
  let matchesSalary :=
    String.eqb filterSalary "" || String.eqb (salary employee) filterSalary in
  matchesSearch && matchesDepartment && matchesSalary.

Definition filteredEmployees (searchTerm filterDepartment filterSalary : string)
    (listed : list Employee) : list Employee :=
  List.filter (matches searchTerm filterDepartment filterSalary) listed.

Definition departments (listed : list Employee) : list string :=
  distinct (List.map department listed).

Definition salaryLevels (listed : list Employee) : list string :=
  distinct (List.map salary listed).

(** The badge of the Status column: [employee.left === 1 ? 'Left' : 'Active']. *)
Definition status_text (employee : Employee) : string :=
  match has_left employee with
  | Some q => if Qeq_bool q 1 then "Left" else "Active"
  | None => "Active"
  end.

End EmployeesDashboard.

(** ** [PredictionsDashboard] of [components/Predictions/PredictionsDashboard.tsx]

    [selectedEmployee], which is declared and never set, is not part of
    [State]. *)
Module PredictionsDashboard.

Record State : Type := mkState {
  predictions : Json;
  highRiskEmployees : list HighRiskEmployee;
  predictionResult : option Prediction;
  loading : bool;
  activeTab : string;
  employeeId : string;
  formData : gmap string Json
}.

(** The form starts from the same literal as the Add Employee form. *)
Definition initial : State :=
  mkState (JArr []) [] None false "predict" ""
    EmployeesDashboard.initial_formData.

Definition setPredictions (v : Json) : M State unit :=
  set_state (fun s => mkState v (highRiskEmployees s) (predictionResult s)
    (loading s) (activeTab s) (employeeId s) (formData s)).

Definition setHighRiskEmployees (v : list HighRiskEmployee) : M State unit :=
  set_state (fun s => mkState (predictions s) v (predictionResult s)
    (loading s) (activeTab s) (employeeId s) (formData s)).

Definition setPredictionResult (v : option Prediction) : M State unit :=
  set_state (fun s => mkState (predictions s) (highRiskEmployees s) v
    (loading s) (activeTab s) (employeeId s) (formData s)).

Definition setLoading (v : bool) : M State unit :=
  set_state (fun s => mkState (predictions s) (highRiskEmployees s)
    (predictionResult s) v (activeTab s) (employeeId s) (formData s)).

Definition setFormData (f : gmap string Json -> gmap string Json) : M State unit :=
  set_state (fun s => mkState (predictions s) (highRiskEmployees s)
    (predictionResult s) (loading s) (activeTab s) (employeeId s) (f (formData s))).

Definition demo_highRiskEmployees : list HighRiskEmployee :=
  [ mkHighRiskEmployee "EMP001" "sales" 0.85 "high" 0.45 0.25 2;
    mkHighRiskEmployee "EMP003" "support" 0.78 "high" 0.88 0.11 4 ].

Definition fetchHighRiskEmployees (env : Env) : M State unit :=
  try_catch
    (data <-- call_api "getHighRiskPredictions"
                (api_getHighRiskPredictions (apiClient env)) ;;
     setHighRiskEmployees data)
    (fun error =>
       console_error "Error fetching high-risk employees:" error ;;
       (* Set demo data if API fails *)
       setHighRiskEmployees demo_highRiskEmployees).

Definition demo_predictions (empId : string) : Json :=
  JArr
    [ obj [ ("id", JNum 1);
            ("employee_id", JStr empId);
            ("turnover_probability", JNum 0.75);
            ("risk_zone", JStr "High Risk Zone (Red)");
            ("model_used", JStr "random_forest");
            ("prediction_confidence", JStr "High");
            ("created_at", JStr "2024-01-01T00:00:00Z");
            ("created_by", JNum 1) ];
      obj [ ("id", JNum 2);
            ("employee_id", JStr empId);
            ("turnover_probability", JNum 0.68);
            ("risk_zone", JStr "Medium Risk Zone (Orange)");
            ("model_used", JStr "random_forest");
            ("prediction_confidence", JStr "Medium");
            ("created_at", JStr "2024-01-02T00:00:00Z");
            ("created_by", JNum 1) ] ].

Definition fetchEmployeePredictions (env : Env) (empId : string) : M State unit :=
  try_catch_finally
    (setLoading true ;;
     token <-- getItem "token" ;;
     response <-- fetch env
       (EmployeesDashboard.authorized "GET"
          ("http://localhost:8000/api/v1/predictions/employee/" ++ empId) token) ;;
     data <-- response_json response ;;
     setPredictions data)
    (fun error =>
       console_error "Error fetching employee predictions:" error ;;
       (* Set demo data if API fails *)
       setPredictions (demo_predictions empId))
    (setLoading false).

(** The nested conditional of the [catch] block. *)
Definition riskZone (mockProbability : Q) : string :=
  if Qlt_bool mockProbability 0.2 then "low"
  else if Qlt_bool mockProbability 0.6 then "medium"
  else if Qlt_bool mockProbability 0.9 then "high"
  else "critical".

Definition demoResult (env : Env) : Prediction :=
  let mockProbability := math_random env in
  mkPrediction 1 ("EMP" ++ pretty (date_now env)) mockProbability
    (riskZone mockProbability) "random_forest" "High" (date_iso env) 1.

Definition predictionData (env : Env) (form : gmap string Json) : gmap string Json :=
  <["left" := JNum 0]>
    (<["employee_id" := JStr ("EMP" ++ pretty (date_now env))]> form).

Definition predictTurnover (env : Env) : M State unit :=
  try_catch_finally
    (setLoading true ;;
     s <-- get_state ;;
     data <-- call_api "predictEmployeeTurnover"
                (api_predictEmployeeTurnover (apiClient env)
                   (predictionData env (formData s))) ;;
     setPredictionResult (Some data))
    (fun error =>
       console_error "Error predicting turnover:" error ;;
       (* Set demo prediction result if API fails *)
       setPredictionResult (Some (demoResult env)))
    (setLoading false).

Definition handleFormChange (field : string) (value : Json) : M State unit :=
  setFormData (fun prev => <[field := value]> prev).

Definition getRiskColor (risk : string) : string :=
  if includes "Safe Zone" risk || includes "Green" risk then
    "bg-green-100 text-green-800"
  else if includes "Low Risk" risk || includes "Yellow" risk then
    "bg-yellow-100 text-yellow-800"
  else if includes "Medium Risk" risk || includes "Orange" risk then
    "bg-orange-100 text-orange-800"
  else if includes "High Risk" risk || includes "Red" risk then
    "bg-red-100 text-red-800"
  else
    "bg-gray-100 text-gray-800".

Definition getShortRiskZone (risk : string) : string :=
  if includes "Safe Zone" risk || includes "Green" risk then "SAFE"
  else if includes "Low Risk" risk || includes "Yellow" risk then "LOW"
  else if includes "Medium Risk" risk || includes "Orange" risk then "MEDIUM"
  else if includes "High Risk" risk || includes "Red" risk then "HIGH"
  else "UNKNOWN".




Definition effect (env : Env) : M State unit := spawn (fetchHighRiskEmployees env).

(** The Refresh Data button.  [predictionResult] and [employeeId] are the
    values of the render in which the button was clicked. *)
Definition refreshAllData (env : Env) : M State unit :=
  seen <-- get_state ;;
  setLoading true ;;
  try_catch_finally
    ((* Refresh high-risk employees *)
     fetchHighRiskEmployees env ;;
     (* If we have a prediction result, refresh it *)
     (match predictionResult seen with
      | Some _ => predictTurnover env
      | None => ret tt
      end) ;;
     (* If we have employee predictions, refresh them *)
     (if String.eqb (employeeId seen) "" then ret tt
      else fetchEmployeePredictions env (employeeId seen)))
    (fun error => console_error "Error refreshing data:" error)
    (setLoading false).

End PredictionsDashboard.

(** ** Percentages: [(v * 100).toFixed(1)] followed by [%] *)

(** [Number.prototype.toFixed(f)] for a finite [x] below [10^21]: [n] is the
    integer for which [n / 10^f - x] is as close to zero as possible, the
    larger one when there are two; its digits are padded with zeros to
    [f + 1] places and the point goes before the last [f].  [x] is the
    number as the program holds it, the result of the arithmetic before. *)
Definition zeros (k : nat) : string := String.concat "" (List.repeat "0" k).

Definition place_point (m : string) (f : nat) : string :=
  if Nat.eqb f 0 then m
  else
    let k := String.length m in
    let m := if Nat.leb k f then zeros (f + 1 - k) ++ m else m in
    let k := if Nat.leb k f then (f + 1)%nat else k in
    String.substring 0 (k - f) m ++ "." ++ String.substring (k - f) f m.

Definition toFixed (x : Q) (f : nat) : string :=
  let s := if Qlt_bool x 0 then "-" else "" in
  let x := Qabs x in
  let n := Qfloor (x * inject_Z (10 ^ Z.of_nat f) + (1 # 2)) in
  s ++ place_point (pretty n) f.

(** The expression every table and card of the dashboards uses for a rate or
    a probability. *)
Definition percent (v : Q) : string := toFixed (fmul v 100) 1 ++ "%".

(** The Turnover Rate card of the Analytics view:
    [{analyticsData?.turnover_rate ? (analyticsData.turnover_rate * 100).toFixed(1) : '0.0'}%] *)
Definition analytics_turnover_rate_text (d : option AnalyticsData) : string :=
  match d with
  | Some a =>
      if negb (Qeq_bool (number (turnover_rate a)) 0)
      then toFixed (fmul (turnover_rate a) 100) 1
      else "0.0"
  | None => "0.0"
  end ++ "%".

(** What the specification says the formatter shows: the value times one
    hundred, rounded to one decimal, with a percent sign; the product and
    the rounding are those of the rationals. *)
Definition round1 (x : Q) : Q := Qfloor (x * 10 + (1 # 2)) # 10.

Definition show_tenths (r : Q) : string :=
  pretty (Qfloor r) ++ "." ++ pretty (Qfloor (r * 10) mod 10)%Z.

Definition spec_percentage (v : Q) : string := show_tenths (round1 (v * 100)) ++ "%".

(** A bound for the distance between the product the program computes for a
    rate between 0 and 1 and the exact one: [2^-45]. *)
Definition product_error : Q := 1 # 35184372088832.

(** ** [Dashboard]: the page behind [/dashboard] (the file [unnamed/part_002])

    A dashboard of [renderActiveView] is mounted by a click on a card of the
    overview, which is below the early return on [!isAuthenticated];
    activating the page mounts none of them. *)
Module Dashboard.

Record State : Type := mkState {
  activeView : string;
  dashboardStats : option AnalyticsData;
  loading : bool;
  isAuthenticated : bool
}.

Definition initial : State := mkState "overview" None true false.

Definition setDashboardStats (v : option AnalyticsData) : M State unit :=
  set_state (fun s => mkState (activeView s) v (loading s) (isAuthenticated s)).

Definition setLoading (v : bool) : M State unit :=
  set_state (fun s => mkState (activeView s) (dashboardStats s) v (isAuthenticated s)).

Definition setIsAuthenticated (v : bool) : M State unit :=
  set_state (fun s => mkState (activeView s) (dashboardStats s) (loading s) v).

Definition fetchDashboardStats (env : Env) : M State unit :=
  try_catch_finally
    (setLoading true ;;
     data <-- call_api "getDashboardAnalytics"
                (api_getDashboardAnalytics (apiClient env)) ;;
     setDashboardStats (Some data))
    (fun error => console_error "Error fetching dashboard stats:" error)
    (setLoading false).

Definition effect (env : Env) : M State unit :=
  (* Check authentication *)
  token <-- getItem "token" ;;
  if no_token token then
    location_href "/landing"
  else
    setIsAuthenticated true ;;
    (* Only fetch dashboard stats if authenticated *)
    spawn (fetchDashboardStats env).

Inductive Screen : Type :=
| CheckingAuthentication
| LoadingDashboard
| ActiveView (view : string).

Definition render (s : State) : Screen :=
  if negb (isAuthenticated s) then CheckingAuthentication
  else if loading s then LoadingDashboard
  else ActiveView (activeView s).

(** The Turnover Rate card of the overview. *)
Definition turnover_rate_text (stats : AnalyticsData) : string :=
  toFixed (fmul (turnover_rate stats) 100) 1 ++ "%".

Definition mount (env : Env) : M State unit := effect env.

End Dashboard.

(** ** [AdminPage]: the page behind [/admin]

    The component follows [LoginPage] in [app/login/page.tsx]. *)
Module AdminPage.

Record State : Type := mkState {
  isAuthenticated : bool;
  dashboard : option AdminDashboard.State
}.

Definition initial : State := mkState false None.

Definition setIsAuthenticated (v : bool) : M State unit :=
  set_state (fun s => mkState v (dashboard s)).

Definition effect : M State unit :=
  token <-- getItem "token" ;;
  if no_token token then router_push "/landing"
  else setIsAuthenticated true.

(** [<AdminDashboard />] is below the early return on [!isAuthenticated]. *)
Definition mount (env : Env) : M State unit :=
  effect ;;
  s <-- get_state ;;
  if isAuthenticated s then
    mount_child AdminDashboard.initial (AdminDashboard.effect env)
      (fun c p => mkState (isAuthenticated p) (Some c))
  else ret tt.

End AdminPage.

(** ** [app/analytics/page.tsx], [app/employees/page.tsx],
       [app/predictions/page.tsx]

    Each of the three returns its layout with the dashboard inside; none has
    state or an effect of its own. *)
Module AnalyticsPage.
Definition mount (env : Env) : M AnalyticsDashboard.State unit :=
  AnalyticsDashboard.effect env.
End AnalyticsPage.

Module EmployeesPage.
Definition mount (env : Env) : M EmployeesDashboard.State unit :=
  EmployeesDashboard.effect env.
End EmployeesPage.

Module PredictionsPage.
Definition mount (env : Env) : M PredictionsDashboard.State unit :=
  PredictionsDashboard.effect env.
End PredictionsPage.

(** The protected views and what activating one does to the world. *)
Inductive ProtectedView : Type :=
| DashboardView
| AnalyticsView
| EmployeesView
| PredictionsView
| AdminView.

Definition activate (v : ProtectedView) (env : Env) (ls : gmap string string) : World :=
  match v with
  | DashboardView => world (run (Dashboard.mount env) Dashboard.initial ls)
  | AnalyticsView => world (run (AnalyticsPage.mount env) AnalyticsDashboard.initial ls)
  | EmployeesView => world (run (EmployeesPage.mount env) EmployeesDashboard.initial ls)
  | PredictionsView => world (run (PredictionsPage.mount env) PredictionsDashboard.initial ls)
  | AdminView => world (run (AdminPage.mount env) AdminPage.initial ls)
  end.

(** ** [HighRiskTable] of [components/Dashboard/HighRiskTable.tsx]
       (the file [unnamed/part_006])

    What the component returns is kept as a tree of tags and texts; class
    names and inline styles are left out. *)
#[warnings="-register-all"]
Inductive Node : Type :=
| Text (s : string)
| Element (tag : string) (children : list Node).

Fixpoint texts (n : Node) : list string :=
  match n with
  | Text s => [s]
  | Element _ children => List.concat (List.map texts children)
  end.

Fixpoint count_tag (tag : string) (n : Node) : nat :=
  match n with
  | Text _ => 0
  | Element t children =>
      (if String.eqb t tag then 1 else 0) + list_sum (List.map (count_tag tag) children)
  end.

(** [s.slice(-2)] for a string of ASCII characters, where the characters
    the program counts are the bytes counted here. *)
Definition slice_last2 (s : string) : string :=
  String.substring (String.length s - 2) 2 s.

(** [s.replace('_', ' ')]: the first underscore only. *)
Fixpoint replace_underscore (s : string) : string :=
  match s with
  | EmptyString => EmptyString
  | String c rest =>
      if Ascii.eqb c "_"%char then String " "%char rest
      else String c (replace_underscore rest)
  end.

Module HighRiskTable.

(** The fields the component reads from an element of [data]. *)
Record Row : Type := mkRow {
  employee_id : string;
  employee_code : string;
  department : string;
  salary : string;
  row_risk_zone : string;
  row_turnover_probability : Q;
  prediction_date : string
}.

Section Render.

(** [formatPercentage] and [formatDateTime] come from [lib/utils], which
    is not among the sources. *)
Variable formatPercentage : Q -> string.
Variable formatDateTime : string -> string.

Definition cell (children : list Node) : Node := Element "td" children.

Definition row (employee : Row) : Node :=
  Element "tr"
    [ cell [ Element "div"
               [ Element "div" [Text (slice_last2 (employee_code employee))];
                 Element "div"
                   [ Element "div" [Text (employee_code employee)];
                     Element "div" [Text ("ID: " ++ employee_id employee)] ] ] ];
      cell [ Element "div" [Text (replace_underscore (department employee))] ];
      cell [ Element "span" [Text (salary employee)] ];
      cell [ Element "span" [Text (row_risk_zone employee)] ];
      cell [ Element "div"
               [ Element "div"
                   [Text (formatPercentage (row_turnover_probability employee))];
                 Element "div" [Element "div" []] ] ];
      cell [ Element "div" [Text (formatDateTime (prediction_date employee))] ] ].

Definition header : Node :=
  Element "thead"
    [ Element "tr"
        [ Element "th" [Text "Employee"];
          Element "th" [Text "Department"];
          Element "th" [Text "Salary"];
          Element "th" [Text "Risk Level"];
          Element "th" [Text "Probability"];
          Element "th" [Text "Predicted"] ] ].

Definition empty_state : Node :=
  Element "div"
    [ Element "div" [Element "span" [Text "✅"]];
      Element "h3" [Text "No High Risk Employees"];
      Element "p" [Text "Great news! All employees are currently in safe zones."] ].

Definition render (data : list Row) : Node :=
  Element "Card"
    [ Element "CardHeader"
        [ Element "CardTitle"
            [ Element "div" [Text "⚠️"];
              Text "High Risk Employees";
              Element "span"
                [Text ("(" ++ pretty (List.length data) ++ " employees)")] ] ];
      Element "CardContent"
        ( [ Element "div"
              [ Element "table"
                  [ header; Element "tbody" (List.map row data) ] ] ]
          ++ (if Nat.eqb (List.length data) 0 then [empty_state] else []) ) ].

End Render.

End HighRiskTable.

(** ** [RiskZoneChart] of [components/Dashboard/RiskZoneChart.tsx]

    [data] is read by key, like any object; a key that is missing or holds
    zero counts as zero. *)
Module RiskZoneChart.

Record Item : Type := mkItem {
  name : string;
  value : Q;
  color : string
}.

(** [data[key] || 0] *)
Definition or_zero (x : option Q) : Q :=
  match x with
  | Some q => if Qeq_bool q 0 then 0 else q
  | None => 0
  end.

Definition chartData (data : gmap string Q) : list Item :=
  [ mkItem "Low Risk Zone (Green)" (or_zero (data !! "Low Risk Zone (Green)")) "#10B981";
    mkItem "Medium Risk Zone (Orange)" (or_zero (data !! "Medium Risk Zone (Orange)")) "#F59E0B";
    mkItem "High Risk Zone (Red)" (or_zero (data !! "High Risk Zone (Red)")) "#EF4444" ].

Definition total (data : gmap string Q) : Q :=
  fold_left (fun sum item => fadd sum (value item)) (chartData data) 0%Q.

(** [{total > 0 ? ((item.value / total) * 100).toFixed(1) : 0}%] *)
Definition share_text (data : gmap string Q) (item : Item) : string :=
  (if Qlt_bool 0 (total data)
   then toFixed (fmul (fdiv (value item) (total data)) 100) 1 else "0")
  ++ "%".

Definition legend (data : gmap string Q) : list (string * Q * string) :=
  List.map (fun item => (name item, value item, share_text data item)) (chartData data).

(** An object of the type the component declares for [data], the interface
    [RiskZoneDistribution] of [types/index.ts]. *)
Definition of_declared_type (safe_zone low_risk_zone medium_risk_zone high_risk_zone : Q) :
    gmap string Q :=
  list_to_map
    [ ("safe_zone", safe_zone);
      ("low_risk_zone", low_risk_zone);
      ("medium_risk_zone", medium_risk_zone);
      ("high_risk_zone", high_risk_zone) ].

End RiskZoneChart.

(** ** [Select] of [components/ui/Select.tsx]

    The component follows [AnalyticsPage] in [app/analytics/page.tsx]. *)
Module Select.

Definition option_node (o : string * string) : Node :=
  Element "option" [Text (snd o)].

(** [{children || options?.map(...) || <option value="">No options
    available</option>}]: an array, even an empty one, is truthy. *)
Definition content (options : option (list (string * string)))
    (children : option (list Node)) : list Node :=
  match children with
  | Some nodes => nodes
  | None =>
      match options with
      | Some opts => List.map option_node opts
      | None => [Element "option" [Text "No options available"]]
      end
  end.

(** [label] and [error] are rendered when they are non-empty strings. *)
Definition shown (x : option string) : bool :=
  match x with
  | Some s => negb (String.eqb s "")
  | None => false
  end.

Definition render (label error : option string)
    (options : option (list (string * string))) (children : option (list Node)) : Node :=
  Element "div"
    ( (if shown label then [Element "label" [Text (default "" label)]] else [])
      ++ [Element "select" (content options children)]
      ++ (if shown error then [Element "p" [Text (default "" error)]] else []) ).

End Select.

(** ** [Sidebar] of [components/Navigation/Sidebar.tsx] *)
Module Sidebar.

Record NavigationItem : Type := mkNavigationItem {
  name : string;
  href : string;
  description : string
}.

Definition navigation : list NavigationItem :=
  [ mkNavigationItem "Dashboard" "/dashboard" "Overview and key metrics";
    mkNavigationItem "Analytics" "/analytics" "Detailed analytics and insights";
    mkNavigationItem "Employees" "/employees" "Employee management and details";
    mkNavigationItem "Predictions" "/predictions" "Turnover predictions and risk analysis";
    mkNavigationItem "Admin" "/admin" "System administration and settings" ].

(** [const isActive = pathname === item.href] *)
Definition isActive (pathname : string) (item : NavigationItem) : bool :=
  String.eqb pathname (href item).

Definition active_items (pathname : string) : list NavigationItem :=
  List.filter (isActive pathname) navigation.

End Sidebar.

(** The alerts and the console errors of a trace. *)
Definition alerts (t : list Event) : list string :=
  omap (fun e => match e with EvAlert msg => Some msg | _ => None end) t.

Definition console_errors (t : list Event) : list string :=
  omap (fun e => match e with EvConsoleError label => Some label | _ => None end) t.

(** A computation that leaves [localStorage] as it found it. *)
Definition storage_stable {S A} (c : M S A) : Prop :=
  forall s w, localStorage (world (c s w)) = localStorage w.

(** A reply on which [await fetch] or [await response.json()] throws: no
    response at all, or a body that does not parse. *)
Definition fetch_throws (reply : FetchReply) : bool :=
  match reply with
  | NoResponse _ | Response _ None => true
  | Response _ (Some _) => false
  end.


(** ** Sample surroundings

    Concrete answers of the outside, used where a statement is evaluated. *)
Module Samples.

Definition resolves {A} (a : A) : ApiCall A := mkApiCall (Normal a) (fun ls => ls).

Definition rejects {A} (e : JsError) : ApiCall A := mkApiCall (Throw e) (fun ls => ls).

Definition failed_to_fetch : JsError := NetworkError "Failed to fetch".

Definition live_analyticsData : AnalyticsData :=
  mkAnalyticsData 120 30 0.25 12 80 [mkDepartmentStats "sales" 120 30 0.25 0.6].

Definition live_riskDistribution : RiskDistribution := mkRiskDistribution 80 20 8 12.

Definition live_prediction : Prediction :=
  mkPrediction 7 "EMP7" 0.1 "Low Risk Zone (Yellow)" "random_forest" "High"
    "2024-03-01T00:00:00Z" 1.

Definition live_systemStatus : SystemStatus :=
  mkSystemStatus "online" "1.0.0" "1 hour" "healthy" "loaded"
    "2024-03-01T00:00:00Z" 120 7 "healthy".

Definition live_trainingResult : ModelTrainingResult :=
  mkModelTrainingResult "completed" "ok" ["random_forest"] "1 minute"
    [("random_forest", 0.9%Q)] "2024-03-01T00:00:00Z".

(** Every call of the client succeeds. *)
Definition api_up : ApiClient :=
  mkApiClient
    (fun _ _ => resolves (obj [("access_token", JStr "jwt-1")]))
    (resolves tt)
    (resolves live_analyticsData)
    (resolves live_riskDistribution)
    (resolves []) (resolves []) (resolves []) (resolves []) (resolves [])
    (fun _ => resolves live_prediction)
    (resolves [])
    (resolves live_systemStatus)
    (resolves live_trainingResult).

(** Nothing answers. *)
Definition api_down : ApiClient :=
  mkApiClient
    (fun _ _ => rejects failed_to_fetch)
    (rejects failed_to_fetch)
    (rejects failed_to_fetch)
    (rejects failed_to_fetch)
    (rejects failed_to_fetch) (rejects failed_to_fetch) (rejects failed_to_fetch)
    (rejects failed_to_fetch) (rejects failed_to_fetch)
    (fun _ => rejects failed_to_fetch)
    (rejects failed_to_fetch)
    (rejects failed_to_fetch)
    (rejects failed_to_fetch).

(** Only the risk distribution fails. *)
Definition api_partial : ApiClient :=
  mkApiClient
    (fun _ _ => resolves (obj [("access_token", JStr "jwt-1")]))
    (resolves tt)
    (resolves live_analyticsData)
    (rejects (ApiError 500 "Internal Server Error"))
    (resolves []) (resolves []) (resolves []) (resolves []) (resolves [])
    (fun _ => resolves live_prediction)
    (resolves [])
    (resolves live_systemStatus)
    (resolves live_trainingResult).

Definition clock : Z := 1700000000000.
Definition clock_iso : string := "2023-11-14T22:13:20.000Z".

Definition offline : Request -> FetchReply := fun _ => NoResponse failed_to_fetch.

(** The server answers every request with the given status and body. *)
Definition answers (status : Z) (body : Json) : Request -> FetchReply :=
  fun _ => Response status (Some body).

Definition env_up : Env :=
  mkEnv (answers 200 (obj [("access_token", JStr "jwt-1")])) api_up 0.1 clock clock_iso.

Definition env_down : Env := mkEnv offline api_down 0.1 clock clock_iso.

Definition env_partial : Env :=
  mkEnv (answers 200 (obj [])) api_partial 0.1 clock clock_iso.


Definition env_forbidden : Env :=
  mkEnv (answers 403 (obj [("detail", JStr "Not enough permissions")]))
    api_up 0.1 clock clock_iso.


(** The server answers by the address of the request; an address that is
    not listed gets no response. *)
Definition by_url (table : list (string * FetchReply)) : Request -> FetchReply :=
  fun r =>
    match List.find (fun row => String.eqb (fst row) (req_url r)) table with
    | Some row => snd row
    | None => NoResponse failed_to_fetch
    end.

Definition employee_7 : Json :=
  obj [("employee_id", JStr "EMP7"); ("department", JStr "IT"); ("salary", JStr "high")].

(** The details of EMP7 are served, its prediction history is not. *)
Definition env_details_only : Env :=
  mkEnv (by_url [("http://localhost:8000/api/v1/employees/EMP7", Response 200 (Some employee_7))])
    api_up 0.1 clock clock_iso.

(** The employee list is served with two employees. *)
Definition env_listing : Env :=
  mkEnv (answers 200 (obj [("employees", JArr [employee_7; employee_7])]))
    api_up 0.1 clock clock_iso.

End Samples.

(** * Properties *)

(** ** Computations that leave [localStorage] alone *)

Create HintDb stable.

Section Stable.

Context {S : Type}.

Lemma stable_ret {A} (a : A) : storage_stable (@ret S A a).
Proof. intros s w; reflexivity. Qed.

Lemma stable_throw {A} (e : JsError) : storage_stable (@throw S A e).
Proof. intros s w; reflexivity. Qed.

Lemma stable_set_state (f : S -> S) : storage_stable (set_state f).
Proof. intros s w; reflexivity. Qed.

Lemma stable_get_state : storage_stable (@get_state S).
Proof. intros s w; reflexivity. Qed.

Lemma stable_emit (e : Event) : storage_stable (@emit S e).
Proof. intros s w; reflexivity. Qed.

Lemma stable_getItem (k : string) : storage_stable (@getItem S k).
Proof. intros s w; reflexivity. Qed.

Lemma stable_bind {A B} (c : M S A) (k : A -> M S B) :
  storage_stable c -> (forall a, storage_stable (k a)) -> storage_stable (bind c k).
Proof.
  intros Hc Hk s w. unfold bind.
  specialize (Hc s w). destruct (c s w) as [[a|e] s' w']; simpl in *.
  - rewrite Hk. exact Hc.
  - exact Hc.
Qed.

Lemma stable_try_catch {A} (body : M S A) (handler : JsError -> M S A) :
  storage_stable body -> (forall e, storage_stable (handler e)) ->
  storage_stable (try_catch body handler).
Proof.
  intros Hb Hh s w. unfold try_catch.
  specialize (Hb s w). destruct (body s w) as [[a|e] s' w']; simpl in *.
  - exact Hb.
  - rewrite Hh. exact Hb.
Qed.

Lemma stable_try_finally {A} (body : M S A) (fin : M S unit) :
  storage_stable body -> storage_stable fin -> storage_stable (try_finally body fin).
Proof.
  intros Hb Hf s w. unfold try_finally.
  specialize (Hb s w). destruct (body s w) as [c s' w']; simpl in *.
  specialize (Hf s' w'). destruct (fin s' w') as [[a|e] s'' w'']; simpl in *; congruence.
Qed.

Lemma stable_try_catch_finally {A}
    (body : M S A) (handler : JsError -> M S A) (fin : M S unit) :
  storage_stable body -> (forall e, storage_stable (handler e)) ->
  storage_stable fin -> storage_stable (try_catch_finally body handler fin).
Proof.
  intros. apply stable_try_finally; [apply stable_try_catch|]; assumption.
Qed.

Lemma stable_spawn {A} (c : M S A) : storage_stable c -> storage_stable (spawn c).
Proof.
  intros Hc s w. unfold spawn.
  specialize (Hc s w). destruct (c s w) as [c' s' w']. exact Hc.
Qed.

Lemma stable_answered (env : Env) (r : Request) : storage_stable (@answered S env r).
Proof.
  unfold answered. destruct (fetch_reply env r); [apply stable_throw | apply stable_ret].
Qed.

Lemma stable_fetch (env : Env) (r : Request) : storage_stable (@fetch S env r).
Proof.
  unfold fetch. apply stable_bind; [apply stable_emit|]. intros _. apply stable_answered.
Qed.

Lemma stable_response_json (resp : Z * option Json) :
  storage_stable (@response_json S resp).
Proof.
  unfold response_json. destruct (snd resp); [apply stable_ret | apply stable_throw].
Qed.

Lemma stable_member (k : string) (data : Json) : storage_stable (@member S k data).
Proof. destruct data; first [apply stable_throw | apply stable_ret]. Qed.

End Stable.

#[global] Hint Resolve stable_ret stable_throw stable_set_state stable_get_state
  stable_emit stable_getItem stable_answered stable_fetch stable_response_json
  stable_member stable_spawn : stable.

(** Walks down a handler: one rule per construct of the monad. *)
Ltac stable_step :=
  match goal with
  | |- storage_stable (try_catch_finally _ _ _) => apply stable_try_catch_finally
  | |- storage_stable (try_catch _ _) => apply stable_try_catch
  | |- storage_stable (bind _ _) => apply stable_bind
  | |- storage_stable (spawn _) => apply stable_spawn
  | |- storage_stable (setTimeout _ _) => apply stable_spawn
  | |- storage_stable (if ?b then _ else _) => destruct b
  | |- storage_stable (match ?x with Some _ => _ | None => _ end) => destruct x
  | |- forall _, _ => intro
  | |- storage_stable _ => solve [auto with stable]
  end.

Ltac stable := repeat stable_step.

Lemma fetchEmployees_stable (env : Env) :
  storage_stable (EmployeesDashboard.fetchEmployees env).
Proof.
  unfold EmployeesDashboard.fetchEmployees, EmployeesDashboard.setLoading,
    EmployeesDashboard.setEmployees, console_error.
  stable.
Qed.

Lemma fetchEmployeeDetails_stable (env : Env) (employeeId : string) :
  storage_stable (EmployeesDashboard.fetchEmployeeDetails env employeeId).
Proof.
  unfold EmployeesDashboard.fetchEmployeeDetails, EmployeesDashboard.setLoading,
    EmployeesDashboard.setSelectedEmployee, EmployeesDashboard.setEmployeePredictions,
    EmployeesDashboard.setRetentionStrategies, console_error.
  stable.
Qed.

Lemma createEmployee_stable (env : Env) :
  storage_stable (EmployeesDashboard.createEmployee env).
Proof.
  unfold EmployeesDashboard.createEmployee, EmployeesDashboard.fetchEmployees_started,
    EmployeesDashboard.fetchEmployees_resumed, EmployeesDashboard.setLoading,
    EmployeesDashboard.setShowAddForm, EmployeesDashboard.setFormData,
    EmployeesDashboard.setEmployees, console_error, alert.
  stable.
Qed.

Lemma fetchEmployeePredictions_stable (env : Env) (empId : string) :
  storage_stable (PredictionsDashboard.fetchEmployeePredictions env empId).
Proof.
  unfold PredictionsDashboard.fetchEmployeePredictions,
    PredictionsDashboard.setLoading, PredictionsDashboard.setPredictions,
    console_error.
  stable.
Qed.


(** ** Running a handler symbolically

    [exec] opens the constructs of the monad, computes as far as the answers
    of the outside allow, splits on the answer the computation is waiting
    for, and goes on. *)
Create HintDb handlers.

#[global] Hint Unfold run bind ret throw try_catch try_finally try_catch_finally
  spawn setTimeout both mount_child set_state get_state emit getItem setItem
  removeItem console_error alert location_href router_push answered fetch
  response_json member call_api token_of : handlers.

#[global] Hint Unfold Navigation.setUser LoginPage.setLoading LoginPage.setError
  AnalyticsDashboard.setAnalyticsData AnalyticsDashboard.setRiskDistribution
  AnalyticsDashboard.setTurnoverByDept AnalyticsDashboard.setTurnoverBySalary
  AnalyticsDashboard.setSatisfactionDist AnalyticsDashboard.setProjectAnalysis
  AnalyticsDashboard.setClusteringAnalysis AnalyticsDashboard.setLoading
  AdminDashboard.setSystemStatus AdminDashboard.setTrainingResult
  AdminDashboard.setLoading AdminDashboard.setTrainingInProgress
  EmployeesDashboard.setEmployees EmployeesDashboard.setSelectedEmployee
  EmployeesDashboard.setEmployeePredictions EmployeesDashboard.setRetentionStrategies
  EmployeesDashboard.setLoading EmployeesDashboard.setShowAddForm
  EmployeesDashboard.setFormData PredictionsDashboard.setPredictions
  PredictionsDashboard.setHighRiskEmployees PredictionsDashboard.setPredictionResult
  PredictionsDashboard.setLoading PredictionsDashboard.setFormData
  Dashboard.setDashboardStats Dashboard.setLoading Dashboard.setIsAuthenticated
  AdminPage.setIsAuthenticated : handlers.

Ltac step := cbn -[lookup insert delete pretty list_to_map].

Ltac exec :=
  autounfold with handlers; step;
  repeat (match goal with
          | |- context [match settles ?c with _ => _ end] =>
              destruct (settles c) eqn:?
          | |- context [match fetch_reply ?e ?r with _ => _ end] =>
              destruct (fetch_reply e r) as [?|? [?|]] eqn:?
          | |- context [if response_ok ?st then _ else _] =>
              destruct (response_ok st) eqn:?
          | |- context [match ?j with JNull => _ | _ => _ end] =>
              is_var j; destruct j
          end; step).

(** ** Logout *)

(** C7. Logging out always completes normally and leaves no token behind:
    whatever was stored before (a token or none), and whether the server's
    logout call resolves or rejects, the [token] entry is gone and the user
    is reset; logging out a second time changes nothing about that. *)
Theorem logout_is_best_effort_and_idempotent
    (env : Env) (s : Navigation.State) (ls : gmap string string) :
  let once := run (Navigation.handleLogout env) s ls in
  let twice := Navigation.handleLogout env (state once) (world once) in
  completion once = Normal tt /\
  token_of (world once) = None /\
  Navigation.user (state once) = None /\
  completion twice = Normal tt /\
  token_of (world twice) = None.
Proof.
  unfold Navigation.handleLogout.
  exec; repeat split; apply lookup_delete_eq.
Qed.

(** ** The Analytics fan-out *)

Lemma fan_out_run (env : Env) (s : AnalyticsDashboard.State) (w : World) :
  AnalyticsDashboard.fan_out env s w =
    mkOutcome (AnalyticsDashboard.fan_out_completion (apiClient env)) s
      (mkWorld (AnalyticsDashboard.fan_out_storage (apiClient env) (localStorage w))
         (trace w ++ AnalyticsDashboard.seven_calls)%list).
Proof.
  unfold AnalyticsDashboard.fan_out, AnalyticsDashboard.fan_out_completion,
    AnalyticsDashboard.fan_out_storage, AnalyticsDashboard.seven_calls,
    both, call_api, bind, emit.
  cbn [localStorage trace]. rewrite <- !app_assoc. reflexivity.
Qed.

Lemma fan_out_completion_cases (api : ApiClient) :
  (AnalyticsDashboard.fan_out_rejected api = true /\
   exists e, AnalyticsDashboard.fan_out_completion api = Throw e) \/
  (AnalyticsDashboard.fan_out_rejected api = false /\
   exists d1 d2 d3 d4 d5 d6 d7,
     settles (api_getDashboardAnalytics api) = Normal d1 /\
     settles (api_getRiskDistribution api) = Normal d2 /\
     settles (api_getTurnoverByDepartment api) = Normal d3 /\
     settles (api_getTurnoverBySalary api) = Normal d4 /\
     settles (api_getSatisfactionDistribution api) = Normal d5 /\
     settles (api_getProjectCountAnalysis api) = Normal d6 /\
     settles (api_getClusteringAnalysis api) = Normal d7 /\
     AnalyticsDashboard.fan_out_completion api = Normal (d1, d2, d3, d4, d5, d6, d7)).
Proof.
  unfold AnalyticsDashboard.fan_out_rejected, AnalyticsDashboard.fan_out_completion, rejected.
  destruct (settles (api_getDashboardAnalytics api)); [|left; step; eauto].
  destruct (settles (api_getRiskDistribution api)); [|left; step; eauto].
  destruct (settles (api_getTurnoverByDepartment api)); [|left; step; eauto].
  destruct (settles (api_getTurnoverBySalary api)); [|left; step; eauto].
  destruct (settles (api_getSatisfactionDistribution api)); [|left; step; eauto].
  destruct (settles (api_getProjectCountAnalysis api)); [|left; step; eauto].
  destruct (settles (api_getClusteringAnalysis api)); [|left; step; eauto].
  right. step. split; [reflexivity|]. repeat eexists.
Qed.

(** What one run of [fetchAnalyticsData] leaves behind. *)
Lemma fetchAnalyticsData_run (env : Env) (s : AnalyticsDashboard.State) (w : World) :
  let ls := AnalyticsDashboard.fan_out_storage (apiClient env) (localStorage w) in
    AnalyticsDashboard.fetchAnalyticsData env s w =
      match AnalyticsDashboard.fan_out_completion (apiClient env) with
      | Normal (d1, d2, d3, d4, d5, d6, d7) =>
          mkOutcome (Normal tt)
            (AnalyticsDashboard.mkState (Some d1) (Some d2) d3 d4 d5 d6 d7 false
               (AnalyticsDashboard.activeTab s))
            (mkWorld ls (trace w ++ AnalyticsDashboard.seven_calls)%list)
      | Throw e =>
          mkOutcome (Normal tt)
            (AnalyticsDashboard.mkState
               (Some AnalyticsDashboard.demo_analyticsData)
               (Some AnalyticsDashboard.demo_riskDistribution)
               AnalyticsDashboard.demo_turnoverByDept
               AnalyticsDashboard.demo_turnoverBySalary
               AnalyticsDashboard.demo_satisfactionDist
               AnalyticsDashboard.demo_projectAnalysis
               AnalyticsDashboard.demo_clusteringAnalysis
               false (AnalyticsDashboard.activeTab s))
            (mkWorld ls
               ((trace w ++ AnalyticsDashboard.seven_calls)
                  ++ [EvConsoleError "Error fetching analytics data:"])%list)
      end.
Proof.
  unfold AnalyticsDashboard.fetchAnalyticsData,
    try_catch_finally, try_finally, try_catch, bind.
  cbn [AnalyticsDashboard.setLoading set_state].
  rewrite fan_out_run. cbn [localStorage].
  destruct (AnalyticsDashboard.fan_out_completion (apiClient env))
    as [[[[[[[d1 d2] d3] d4] d5] d6] d7]|e]; reflexivity.
Qed.

Lemma requests_seven_calls (t : list Event) :
  requests (t ++ AnalyticsDashboard.seven_calls) =
    (requests t ++ AnalyticsDashboard.seven_calls)%list.
Proof. unfold requests. rewrite List.filter_app. reflexivity. Qed.

Lemma redirects_seven_calls (t : list Event) :
  redirects (t ++ AnalyticsDashboard.seven_calls) = redirects t.
Proof. unfold redirects. rewrite List.filter_app. apply app_nil_r. Qed.

Lemma requests_console_error (t : list Event) (label : string) :
  requests (t ++ [EvConsoleError label]) = requests t.
Proof. unfold requests. rewrite List.filter_app. apply app_nil_r. Qed.

Lemma redirects_console_error (t : list Event) (label : string) :
  redirects (t ++ [EvConsoleError label]) = redirects t.
Proof. unfold redirects. rewrite List.filter_app. apply app_nil_r. Qed.

Lemma fetchAnalyticsData_settled (env : Env) (s : AnalyticsDashboard.State) (w : World) :
  let api := apiClient env in
  let r := AnalyticsDashboard.fetchAnalyticsData env s w in
  completion r = Normal tt /\
  AnalyticsDashboard.loading (state r) = false /\
  requests (trace (world r)) = (requests (trace w) ++ AnalyticsDashboard.seven_calls)%list /\
  redirects (trace (world r)) = redirects (trace w) /\
  (AnalyticsDashboard.fan_out_rejected api = true ->
     AnalyticsDashboard.resources (state r) = AnalyticsDashboard.demo_resources) /\
  (forall d1 d2 d3 d4 d5 d6 d7,
     settles (api_getDashboardAnalytics api) = Normal d1 ->
     settles (api_getRiskDistribution api) = Normal d2 ->
     settles (api_getTurnoverByDepartment api) = Normal d3 ->
     settles (api_getTurnoverBySalary api) = Normal d4 ->
     settles (api_getSatisfactionDistribution api) = Normal d5 ->
     settles (api_getProjectCountAnalysis api) = Normal d6 ->
     settles (api_getClusteringAnalysis api) = Normal d7 ->
     AnalyticsDashboard.resources (state r) = (Some d1, Some d2, d3, d4, d5, d6, d7)).
Proof.
  intros api r.
  pose proof (fetchAnalyticsData_run env s w) as Hrun. cbv zeta in Hrun.
  fold r api in Hrun.
  destruct (fan_out_completion_cases api)
    as [[Hrej [e E]]
       |[Hrej (d1 & d2 & d3 & d4 & d5 & d6 & d7
               & E1 & E2 & E3 & E4 & E5 & E6 & E7 & E)]];
    rewrite E in Hrun; rewrite Hrun; clear Hrun r;
    cbn [completion state world trace AnalyticsDashboard.loading];
    rewrite ?requests_console_error, ?redirects_console_error,
      requests_seven_calls, redirects_seven_calls.
  - repeat split.
    intros c1 c2 c3 c4 c5 c6 c7 F1 F2 F3 F4 F5 F6 F7. exfalso.
    unfold AnalyticsDashboard.fan_out_rejected, rejected in Hrej.
    rewrite F1, F2, F3, F4, F5, F6, F7 in Hrej. discriminate Hrej.
  - repeat split; try congruence.
    intros c1 c2 c3 c4 c5 c6 c7 F1 F2 F3 F4 F5 F6 F7.
    unfold AnalyticsDashboard.resources; cbn.
    congruence.
Qed.

(** ** The token and the requests of the views *)

Lemma spawn_world {S A} (c : M S A) (s : S) (w : World) :
  world (spawn c s w) = world (c s w).
Proof. unfold spawn. destruct (c s w); reflexivity. Qed.




(** C5, the claim as stated, fails: a login that is rejected on the login
    page writes a token. *)
Lemma failed_login_writes_demo_token :
  ~ (forall (env : Env) (s : LoginPage.State) (ls : gmap string string),
       rejected (api_login (apiClient env) (LoginPage.email s) (LoginPage.password s)) = true ->
       token_of (world (run (LoginPage.handleLogin env) s ls)) = ls !! "token").
Proof.
  intros claim.
  specialize (claim Samples.env_down LoginPage.initial ∅ eq_refl).
  vm_compute in claim. discriminate claim.
Qed.

(** C5, amended. Who writes [localStorage], handler by handler and effect
    by effect; there is no other code that runs in the views.
    - The landing page writes [token] when the login request is answered
      with a 2xx status and a body that parses to something other than
      [null]: the entry becomes the [access_token] of the body, as a string
      (the text [undefined] when the body has none).  On any other answer,
      or none, the storage is unchanged.
    - The login page writes nothing when the client's login resolves, and the
      fixed [demo-token] when it rejects.
    - Logout removes [token].
    - Everything else leaves the storage as it is, or as the client left it
      in the calls that go through the client: the requests the views send
      themselves, the handlers that call the client, the form fields, the
      Refresh Data button, the effect of the top bar, and the mounting of
      each of the five pages with its guard and its dashboard. *)
Theorem token_store_writers
    (env : Env) (num : Q -> string) (ls : gmap string string) :
  let api := apiClient env in
  let after {S A} (c : M S A) (s : S) := localStorage (world (run c s ls)) in
  (forall s,
     match fetch_reply env (LandingPage.login_request s) with
     | Response status (Some data) =>
         if response_ok status then
           match data with
           | JNull => after (LandingPage.handleLogin env num) s = ls
           | _ => after (LandingPage.handleLogin env num) s
                    = <["token" := js_toString_opt num (prop "access_token" data)]> ls
           end
         else after (LandingPage.handleLogin env num) s = ls
     | _ => after (LandingPage.handleLogin env num) s = ls
     end) /\
  (forall s,
     let login := api_login api (LoginPage.email s) (LoginPage.password s) in
     after (LoginPage.handleLogin env) s =
       if rejected login then <["token" := "demo-token"]> (storage_effect login ls)
       else storage_effect login ls) /\
  (forall s,
     after (Navigation.handleLogout env) s = delete "token" (storage_effect (api_logout api) ls)) /\
  (forall s, after Navigation.effect s = ls) /\
  (forall s, after (EmployeesDashboard.fetchEmployees env) s = ls) /\
  (forall s id, after (EmployeesDashboard.fetchEmployeeDetails env id) s = ls) /\
  (forall s, after (EmployeesDashboard.createEmployee env) s = ls) /\
  (forall s, after (EmployeesDashboard.click_create env) s = ls) /\
  (forall s field value, after (EmployeesDashboard.handleFormChange field value) s = ls) /\
  (forall s field value, after (PredictionsDashboard.handleFormChange field value) s = ls) /\
  (forall s id, after (PredictionsDashboard.fetchEmployeePredictions env id) s = ls) /\
  (forall s, after (PredictionsDashboard.fetchHighRiskEmployees env) s
     = storage_effect (api_getHighRiskPredictions api) ls) /\
  (forall s, after (PredictionsDashboard.predictTurnover env) s
     = storage_effect (api_predictEmployeeTurnover api
         (PredictionsDashboard.predictionData env (PredictionsDashboard.formData s))) ls) /\
  (forall s, after (PredictionsDashboard.refreshAllData env) s
     = let listed := storage_effect (api_getHighRiskPredictions api) ls in
       match PredictionsDashboard.predictionResult s with
       | Some _ =>
           storage_effect (api_predictEmployeeTurnover api
             (PredictionsDashboard.predictionData env (PredictionsDashboard.formData s)))
             listed
       | None => listed
       end) /\
  (forall s, after (Dashboard.fetchDashboardStats env) s
     = storage_effect (api_getDashboardAnalytics api) ls) /\
  (forall s, after (AdminDashboard.fetchSystemStatus env) s
     = storage_effect (api_getSystemStatus api) ls) /\
  (forall s, after (AdminDashboard.trainModels env) s
     = let trained := storage_effect (api_trainModels api) ls in
       if rejected (api_trainModels api) then trained
       else storage_effect (api_getSystemStatus api) trained) /\
  (forall s, after (AnalyticsDashboard.fetchAnalyticsData env) s
     = AnalyticsDashboard.fan_out_storage api ls) /\
  (forall s, after AdminPage.effect s = ls) /\
  (forall s, after (AdminPage.mount env) s
     = if no_token (ls !! "token") && negb (AdminPage.isAuthenticated s) then ls
       else storage_effect (api_getSystemStatus api) ls) /\
  (forall s, after (Dashboard.effect env) s
     = if no_token (ls !! "token") then ls
       else storage_effect (api_getDashboardAnalytics api) ls) /\
  (forall s, after (EmployeesDashboard.effect env) s = ls) /\
  (forall s, after (PredictionsDashboard.effect env) s
     = storage_effect (api_getHighRiskPredictions api) ls) /\
  (forall s, after (AdminDashboard.effect env) s
     = storage_effect (api_getSystemStatus api) ls) /\
  (forall s, after (AnalyticsDashboard.effect env) s
     = AnalyticsDashboard.fan_out_storage api ls) /\
  localStorage (activate DashboardView env ls)
    = (if no_token (ls !! "token") then ls
       else storage_effect (api_getDashboardAnalytics api) ls) /\
  localStorage (activate AdminView env ls)
    = (if no_token (ls !! "token") then ls
       else storage_effect (api_getSystemStatus api) ls) /\
  localStorage (activate AnalyticsView env ls) = AnalyticsDashboard.fan_out_storage api ls /\
  localStorage (activate EmployeesView env ls) = ls /\
  localStorage (activate PredictionsView env ls)
    = storage_effect (api_getHighRiskPredictions api) ls.
Proof.
  intros api after. subst api after. cbv beta.
  repeat apply conj; try intros s.
  - unfold LandingPage.handleLogin. exec; reflexivity.
  - intros login; subst login. unfold LoginPage.handleLogin, rejected. exec; reflexivity.
  - unfold Navigation.handleLogout. exec; reflexivity.
  - unfold Navigation.effect. exec. destruct (no_token (ls !! "token")); reflexivity.
  - apply fetchEmployees_stable.
  - intros id. apply fetchEmployeeDetails_stable.
  - apply createEmployee_stable.
  - unfold EmployeesDashboard.click_create. autounfold with handlers; step.
    destruct (EmployeesDashboard.loading s); [reflexivity|].
    apply (createEmployee_stable env s (mkWorld ls [])).
  - intros field value. reflexivity.
  - intros field value. reflexivity.
  - intros id. apply fetchEmployeePredictions_stable.
  - unfold PredictionsDashboard.fetchHighRiskEmployees. exec; reflexivity.
  - unfold PredictionsDashboard.predictTurnover. exec; reflexivity.
  - unfold PredictionsDashboard.refreshAllData, PredictionsDashboard.fetchHighRiskEmployees,
      PredictionsDashboard.predictTurnover, PredictionsDashboard.fetchEmployeePredictions.
    destruct s as [shown high [result|] busy tab id form];
      destruct (String.eqb id "") eqn:Hid;
      autounfold with handlers; step; rewrite ?Hid; exec; reflexivity.
  - unfold Dashboard.fetchDashboardStats. exec; reflexivity.
  - unfold AdminDashboard.fetchSystemStatus. exec; reflexivity.
  - unfold AdminDashboard.trainModels, AdminDashboard.fetchSystemStatus, rejected.
    exec; reflexivity.
  - unfold run. pose proof (fetchAnalyticsData_run env s (mkWorld ls [])) as Hrun.
    cbv zeta in Hrun. rewrite Hrun.
    destruct (AnalyticsDashboard.fan_out_completion (apiClient env))
      as [[[[[[[d1 d2] d3] d4] d5] d6] d7]|e]; reflexivity.
  - unfold AdminPage.effect. exec. destruct (no_token (ls !! "token")); reflexivity.
  - unfold AdminPage.mount, AdminPage.effect, AdminDashboard.effect,
      AdminDashboard.fetchSystemStatus.
    autounfold with handlers; step.
    destruct (no_token (ls !! "token")); step;
      [destruct (AdminPage.isAuthenticated s); step|]; exec; reflexivity.
  - unfold Dashboard.effect, Dashboard.fetchDashboardStats.
    autounfold with handlers; step.
    destruct (no_token (ls !! "token")); [reflexivity|]. exec; reflexivity.
  - unfold EmployeesDashboard.effect, run. rewrite spawn_world.
    apply (fetchEmployees_stable env s (mkWorld ls [])).
  - unfold PredictionsDashboard.effect, PredictionsDashboard.fetchHighRiskEmployees.
    exec; reflexivity.
  - unfold AdminDashboard.effect, AdminDashboard.fetchSystemStatus. exec; reflexivity.
  - unfold AnalyticsDashboard.effect, run. rewrite spawn_world.
    pose proof (fetchAnalyticsData_run env s (mkWorld ls [])) as Hrun.
    cbv zeta in Hrun. rewrite Hrun.
    destruct (AnalyticsDashboard.fan_out_completion (apiClient env))
      as [[[[[[[d1 d2] d3] d4] d5] d6] d7]|e]; reflexivity.
  - unfold activate, Dashboard.mount, Dashboard.effect, Dashboard.fetchDashboardStats.
    autounfold with handlers; step.
    destruct (no_token (ls !! "token")); [reflexivity|]. exec; reflexivity.
  - unfold activate, AdminPage.mount, AdminPage.effect, AdminDashboard.effect,
      AdminDashboard.fetchSystemStatus.
    autounfold with handlers; step.
    destruct (no_token (ls !! "token")); [reflexivity|]. exec; reflexivity.
  - unfold activate, AnalyticsPage.mount, AnalyticsDashboard.effect, run.
    rewrite spawn_world.
    pose proof (fetchAnalyticsData_run env AnalyticsDashboard.initial (mkWorld ls []))
      as Hrun.
    cbv zeta in Hrun. rewrite Hrun.
    destruct (AnalyticsDashboard.fan_out_completion (apiClient env))
      as [[[[[[[d1 d2] d3] d4] d5] d6] d7]|e]; reflexivity.
  - unfold activate, EmployeesPage.mount, EmployeesDashboard.effect, run.
    rewrite spawn_world.
    apply (fetchEmployees_stable env EmployeesDashboard.initial (mkWorld ls [])).
  - unfold activate, PredictionsPage.mount, PredictionsDashboard.effect,
      PredictionsDashboard.fetchHighRiskEmployees.
    exec; reflexivity.
Qed.

(** ** The Analytics view *)

(** C2, the claim as stated, fails: with the dashboard call resolved and the
    risk-distribution call rejected, the live dashboard data is not what the
    view ends up holding. *)
Lemma partial_failure_discards_live_data :
  ~ (forall (env : Env) (s : AnalyticsDashboard.State) (ls : gmap string string)
            (d : AnalyticsData),
       settles (api_getDashboardAnalytics (apiClient env)) = Normal d ->
       AnalyticsDashboard.analyticsData
         (state (run (AnalyticsDashboard.fetchAnalyticsData env) s ls)) = Some d).
Proof.
  intros claim.
  specialize (claim Samples.env_partial AnalyticsDashboard.initial ∅
                Samples.live_analyticsData eq_refl).
  vm_compute in claim. discriminate claim.
Qed.

(** C2, amended. The fan-out of the Analytics view is all or nothing: when at
    least one of the seven calls rejects, every one of the seven resources is
    replaced by its demo dataset, the resolved ones included; only when all
    seven resolve does the view hold the live data, all seven of them.  In
    both cases [loading] ends false. *)
Theorem fan_out_is_all_or_nothing
    (env : Env) (s : AnalyticsDashboard.State) (ls : gmap string string) :
  let api := apiClient env in
  let r := run (AnalyticsDashboard.fetchAnalyticsData env) s ls in
  AnalyticsDashboard.loading (state r) = false /\
  (AnalyticsDashboard.fan_out_rejected api = true ->
     AnalyticsDashboard.resources (state r) = AnalyticsDashboard.demo_resources) /\
  (forall d1 d2 d3 d4 d5 d6 d7,
     settles (api_getDashboardAnalytics api) = Normal d1 ->
     settles (api_getRiskDistribution api) = Normal d2 ->
     settles (api_getTurnoverByDepartment api) = Normal d3 ->
     settles (api_getTurnoverBySalary api) = Normal d4 ->
     settles (api_getSatisfactionDistribution api) = Normal d5 ->
     settles (api_getProjectCountAnalysis api) = Normal d6 ->
     settles (api_getClusteringAnalysis api) = Normal d7 ->
     AnalyticsDashboard.resources (state r) = (Some d1, Some d2, d3, d4, d5, d6, d7)).
Proof.
  intros api r.
  destruct (fetchAnalyticsData_settled env s (mkWorld ls []))
    as (_ & Hloading & _ & _ & Hdemo & Hlive).
  repeat split; assumption.
Qed.

Lemma fan_out_is_all_or_nothing_witness :
  AnalyticsDashboard.resources
    (state (run (AnalyticsDashboard.fetchAnalyticsData Samples.env_partial)
              AnalyticsDashboard.initial ∅))
    = AnalyticsDashboard.demo_resources /\
  AnalyticsDashboard.resources
    (state (run (AnalyticsDashboard.fetchAnalyticsData Samples.env_up)
              AnalyticsDashboard.initial ∅))
    = (Some Samples.live_analyticsData, Some Samples.live_riskDistribution,
       [], [], [], [], []).
Proof.
  split.
  - destruct (fan_out_is_all_or_nothing Samples.env_partial AnalyticsDashboard.initial ∅)
      as (_ & Hdemo & _).
    apply Hdemo. reflexivity.
  - destruct (fan_out_is_all_or_nothing Samples.env_up AnalyticsDashboard.initial ∅)
      as (_ & _ & Hlive).
    apply Hlive; reflexivity.
Defined.

(** ** Fallback datasets *)




(** ** The session guard *)

(** The two pages that carry the check: without a token they redirect to
    the landing route and request nothing; the dashboard page stays on its
    placeholder. *)
Lemma guarded_pages_redirect (env : Env) (ls : gmap string string) :
  ls !! "token" = None ->
  trace (activate DashboardView env ls) = [EvLocationHref "/landing"] /\
  trace (activate AdminView env ls) = [EvRouterPush "/landing"].
Proof.
  intros Hnone. unfold activate, Dashboard.mount, Dashboard.effect,
    AdminPage.mount, AdminPage.effect.
  autounfold with handlers. step. rewrite Hnone. split; reflexivity.
Qed.

Lemma dashboard_placeholder_without_token (env : Env) (ls : gmap string string) :
  ls !! "token" = None ->
  Dashboard.render (state (run (Dashboard.mount env) Dashboard.initial ls))
    = Dashboard.CheckingAuthentication.
Proof.
  intros Hnone. unfold Dashboard.mount, Dashboard.effect.
  autounfold with handlers. step. rewrite Hnone. reflexivity.
Qed.

(** C1, on the code. Activating a protected view while no token is stored:
    the dashboard and the admin page redirect to the landing route and send
    nothing, but the analytics, employees and predictions pages do not
    redirect and send the requests of their dashboards. *)
Theorem unguarded_pages_fetch_without_token (env : Env) (ls : gmap string string) :
  ls !! "token" = None ->
  (trace (activate DashboardView env ls) = [EvLocationHref "/landing"] /\
   trace (activate AdminView env ls) = [EvRouterPush "/landing"]) /\
  (redirects (trace (activate AnalyticsView env ls)) = [] /\
   requests (trace (activate AnalyticsView env ls)) = AnalyticsDashboard.seven_calls) /\
  (redirects (trace (activate EmployeesView env ls)) = [] /\
   requests (trace (activate EmployeesView env ls)) =
     [EvFetch (EmployeesDashboard.authorized "GET"
                 "http://localhost:8000/api/v1/employees/" None)]) /\
  (redirects (trace (activate PredictionsView env ls)) = [] /\
   requests (trace (activate PredictionsView env ls)) =
     [EvApiCall "getHighRiskPredictions"]).
Proof.
  intros Hnone. split; [apply guarded_pages_redirect; assumption|].
  repeat apply conj.
  - unfold activate, AnalyticsPage.mount, AnalyticsDashboard.effect, run.
    rewrite spawn_world.
    apply (fetchAnalyticsData_settled env AnalyticsDashboard.initial (mkWorld ls [])).
  - unfold activate, AnalyticsPage.mount, AnalyticsDashboard.effect, run.
    rewrite spawn_world.
    apply (fetchAnalyticsData_settled env AnalyticsDashboard.initial (mkWorld ls [])).
  - unfold activate, EmployeesPage.mount, EmployeesDashboard.effect,
      EmployeesDashboard.fetchEmployees.
    autounfold with handlers. step. rewrite Hnone. exec; reflexivity.
  - unfold activate, EmployeesPage.mount, EmployeesDashboard.effect,
      EmployeesDashboard.fetchEmployees.
    autounfold with handlers. step. rewrite Hnone. exec; reflexivity.
  - unfold activate, PredictionsPage.mount, PredictionsDashboard.effect,
      PredictionsDashboard.fetchHighRiskEmployees.
    exec; reflexivity.
  - unfold activate, PredictionsPage.mount, PredictionsDashboard.effect,
      PredictionsDashboard.fetchHighRiskEmployees.
    exec; reflexivity.
Qed.

Lemma unguarded_pages_fetch_without_token_witness :
  (∅ : gmap string string) !! "token" = None /\
  trace (activate DashboardView Samples.env_up ∅) = [EvLocationHref "/landing"] /\
  requests (trace (activate AnalyticsView Samples.env_up ∅)) = AnalyticsDashboard.seven_calls.
Proof.
  assert (Hnone : (∅ : gmap string string) !! "token" = None) by reflexivity.
  destruct (unguarded_pages_fetch_without_token Samples.env_up ∅ Hnone)
    as ((Hdashboard & _) & (_ & Hanalytics) & _).
  repeat split; assumption.
Defined.

(** ** The Add Employee form *)

(** C6, on the code. With 1.5 typed into the satisfaction field, a click on
    Create Employee goes straight to the network: the first effect of the
    handler is the POST to the employees endpoint, and the body it carries
    has [satisfaction_level] 1.5.  Nothing between the field and the request
    compares the value with the range printed on the label. *)
Theorem out_of_range_satisfaction_is_posted (env : Env) (ls : gmap string string) :
  let typed :=
    state (run (EmployeesDashboard.handleFormChange "satisfaction_level" (JNum 1.5))
             EmployeesDashboard.initial ls) in
  let r := run (EmployeesDashboard.click_create env) typed ls in
  let sent :=
    EmployeesDashboard.create_request env
      (<["satisfaction_level" := JNum 1.5]> EmployeesDashboard.initial_formData)
      (ls !! "token") in
  head (trace (world r)) = Some (EvFetch sent) /\
  match req_body sent with
  | JsonBody body => prop "satisfaction_level" body
  | _ => None
  end = Some (JNum 1.5).
Proof.
  split.
  - unfold EmployeesDashboard.click_create, EmployeesDashboard.createEmployee,
      EmployeesDashboard.handleFormChange, EmployeesDashboard.fetchEmployees_started,
      EmployeesDashboard.fetchEmployees_resumed.
    exec; reflexivity.
  - unfold EmployeesDashboard.create_request, EmployeesDashboard.create_body. step.
    rewrite !lookup_insert_ne by discriminate. apply lookup_insert_eq.
Qed.

(** ** Percentages *)

Local Open Scope Q_scope.

(** The digits [toFixed] lays out are those of the rounded value, for every
    count of tenths a percentage can have. *)
Lemma place_point_tenths (n : Z) :
  (0 <= n <= 1000)%Z -> place_point (pretty n) 1 = show_tenths (n # 10).
Proof.
  intros Hn.
  assert (Hall : forallb
            (fun k => String.eqb (place_point (pretty k) 1) (show_tenths (k # 10)))
            (seqZ 0 1001) = true) by (vm_compute; reflexivity).
  rewrite forallb_forall in Hall.
  apply String.eqb_eq, Hall, list_elem_of_In, elem_of_seqZ. lia.
Qed.

(** *** Rounding to binary64 *)

Lemma round_half_even_near (x : Q) :
  Qabs (inject_Z (round_half_even x) - x) <= 1 # 2.
Proof.
  pose proof (Qfloor_le x) as Hlow. pose proof (Qlt_floor x) as Hhigh.
  assert (Hnext : inject_Z (Qfloor x + 1) == inject_Z (Qfloor x) + 1)
    by (rewrite inject_Z_plus; reflexivity).
  rewrite Hnext in Hhigh.
  apply Qabs_Qle_condition. unfold round_half_even.
  destruct (Qcompare_spec (x - inject_Z (Qfloor x)) (1 # 2)) as [Hhalf|Hbelow|Habove].
  - destruct (Z.even (Qfloor x)); rewrite ?Hnext; lra.
  - lra.
  - rewrite Hnext. lra.
Qed.

Lemma round_half_even_nonneg (x : Q) : 0 <= x -> (0 <= round_half_even x)%Z.
Proof.
  intros Hx.
  assert (Hfloor : (0 <= Qfloor x)%Z).
  { change 0%Z with (Qfloor 0). apply Qfloor_resp_le. exact Hx. }
  unfold round_half_even.
  destruct (Qcompare (x - inject_Z (Qfloor x)) (1 # 2));
    [destruct (Z.even (Qfloor x))| |]; lia.
Qed.

Lemma two_nonzero : ~ 2 == 0.
Proof. discriminate. Qed.

(** The exponent found for a positive number is not above the number. *)
Lemma exponent_le (x : Q) : 0 < x -> 2 ^ exponent x <= x.
Proof.
  intros Hx. unfold exponent.
  destruct (Qle_bool (2 ^ (Z.log2 (Qnum x) - Z.log2 (Z.pos (Qden x)))) x) eqn:Hfits.
  - apply Qle_bool_iff. exact Hfits.
  - clear Hfits. destruct x as [n d]. cbn [Qnum Qden].
    assert (Hn : (0 < n)%Z) by (unfold Qlt in Hx; cbn in Hx; lia).
    pose proof (Z.log2_spec n Hn) as (Hnlow & _).
    pose proof (Z.log2_spec (Z.pos d) (Pos2Z.is_pos d)) as (_ & Hdhigh).
    pose proof (Z.log2_nonneg n) as Ha. pose proof (Z.log2_nonneg (Z.pos d)) as Hb.
    set (a := Z.log2 n) in *. set (b := Z.log2 (Z.pos d)) in *.
    replace (a - b - 1)%Z with (a - Z.succ b)%Z by lia.
    rewrite (Qpower_minus 2 a (Z.succ b) two_nonzero).
    rewrite <- (Zpower_Qpower 2 a Ha), <- (Zpower_Qpower 2 (Z.succ b)) by lia.
    rewrite (Qmake_Qdiv n d).
    assert (Hnum : inject_Z (2 ^ a) <= inject_Z n) by (rewrite <- Zle_Qle; exact Hnlow).
    assert (Hden : inject_Z (Z.pos d) <= inject_Z (2 ^ Z.succ b))
      by (rewrite <- Zle_Qle; lia).
    assert (Hdpos : 0 < inject_Z (Z.pos d)) by reflexivity.
    assert (Hppos : 0 < inject_Z (2 ^ a)).
    { change 0 with (inject_Z 0). rewrite <- Zlt_Qlt. apply Z.pow_pos_nonneg; lia. }
    apply Qle_shift_div_l; [exact Hdpos|].
    generalize dependent (inject_Z (2 ^ a)). generalize dependent (inject_Z (2 ^ Z.succ b)).
    generalize dependent (inject_Z (Z.pos d)). generalize dependent (inject_Z n).
    intros N D Hdpos T Hden P Hnum Hppos.
    assert (Hratio : D / T <= 1) by (apply Qle_shift_div_r; lra).
    assert (Hsame : P / T * D == P * (D / T)) by (field; lra).
    rewrite Hsame. nra.
Qed.

(** A number that is not negative and below [2^k] is rounded to a number
    that is not negative, at most [2^(k-54)] away: half of the spacing
    [2^(k-53)] of the binary64 numbers below [2^k]. *)
Lemma round64_near (x : Q) (k : Z) :
  0 <= x -> x < 2 ^ k -> (-1021 <= k)%Z ->
  0 <= round64 x /\ Qabs (round64 x - x) <= 2 ^ (k - 54).
Proof.
  intros Hlow Hhigh Hk.
  assert (Hgap : 0 < 2 ^ (k - 53)) by (apply Qpower_0_lt; reflexivity).
  assert (Hhalf : 2 ^ (k - 54) == 2 ^ (k - 53) * (1 # 2)).
  { replace (k - 54)%Z with (k - 53 + -1)%Z by lia.
    rewrite (Qpower_plus 2 _ _ two_nonzero). reflexivity. }
  rewrite Hhalf. unfold round64.
  destruct (Qeq_bool x 0) eqn:Hzero.
  - apply Qeq_bool_eq in Hzero. split; [lra|].
    apply Qabs_Qle_condition. split; lra.
  - assert (Hpos : 0 < x).
    { apply Qeq_bool_neq in Hzero. lra. }
    assert (Hsign : Qlt_bool x 0 = false).
    { unfold Qlt_bool. apply negb_false_iff, Qle_bool_iff. exact Hlow. }
    rewrite Hsign.
    assert (Habs : Qabs x = x).
    { destruct x as [[|n|n] d]; try reflexivity; unfold Qlt in Hpos; cbn in Hpos; lia. }
    rewrite Habs.
    pose proof (exponent_le x Hpos) as Hexp.
    assert (He : (exponent x < k)%Z).
    { apply (Qpower_lt_compat_l_inv 2); [|reflexivity].
      apply Qle_lt_trans with x; [exact Hexp | exact Hhigh]. }
    set (p := Z.max (exponent x - 52) (-1074)).
    assert (Hp : (p <= k - 53)%Z) by (unfold p; lia).
    assert (Hulp : 0 < 2 ^ p) by (apply Qpower_0_lt; reflexivity).
    assert (Hsmall : 2 ^ p <= 2 ^ (k - 53))
      by (apply Qpower_le_compat_l; [exact Hp | discriminate]).
    pose proof (round_half_even_near (x / 2 ^ p)) as Hnear.
    pose proof (round_half_even_nonneg (x / 2 ^ p)) as Hm.
    assert (Hquot : 0 <= x / 2 ^ p) by (apply Qle_shift_div_l; lra).
    specialize (Hm Hquot).
    assert (Hmq : 0 <= inject_Z (round_half_even (x / 2 ^ p)))
      by (change 0 with (inject_Z 0); rewrite <- Zle_Qle; exact Hm).
    apply Qabs_Qle_condition in Hnear.
    assert (Hx : x == x / 2 ^ p * 2 ^ p) by (field; lra).
    generalize dependent (inject_Z (round_half_even (x / 2 ^ p))).
    generalize dependent (x / 2 ^ p). generalize dependent (2 ^ p).
    generalize dependent (2 ^ (k - 53)).
    intros gap Hgap _ u Hu Hsmall z Hquot Hzx m Hmnear Hmq.
    split; [nra|].
    apply Qabs_Qle_condition. split; nra.
Qed.

(** *** The product and its digits *)

Lemma number_100 : number 100 == 100.
Proof. vm_compute. reflexivity. Qed.

(** The product the program computes for a rate between 0 and 1 is not
    negative and within [product_error] of the exact product. *)
Lemma product_near (v : Q) :
  0 <= v <= 1 -> 0 <= fmul v 100 /\ Qabs (fmul v 100 - v * 100) <= product_error.
Proof.
  intros [Hlow Hhigh]. unfold fmul.
  destruct (round64_near v 1) as (Hread & Hreadnear); [exact Hlow | | lia |].
  { apply Qle_lt_trans with 1; [exact Hhigh | reflexivity]. }
  fold (number v) in Hread, Hreadnear.
  assert (H53 : 2 ^ (1 - 54) == 1 # 9007199254740992) by reflexivity.
  rewrite H53 in Hreadnear. apply Qabs_Qle_condition in Hreadnear.
  pose proof number_100 as Hhundred.
  destruct (round64_near (number v * number 100) 7) as (Hnonneg & Hnear).
  - rewrite Hhundred. nra.
  - rewrite Hhundred. apply Qlt_le_trans with 128; [lra | discriminate].
  - lia.
  - assert (H47 : 2 ^ (7 - 54) == 1 # 140737488355328) by reflexivity.
    rewrite H47 in Hnear. apply Qabs_Qle_condition in Hnear.
    split; [exact Hnonneg|].
    apply Qabs_Qle_condition. unfold product_error.
    generalize dependent (round64 (number v * number 100)).
    generalize dependent (number 100). generalize dependent (number v).
    intros nv Hread Hreadnear hundred Hhundred product Hnonneg Hnear.
    rewrite Hhundred in Hnear. split; lra.
Qed.

Lemma Qfloor_unique (x : Q) (n : Z) :
  inject_Z n <= x -> x < inject_Z n + 1 -> Qfloor x = n.
Proof.
  intros Hlow Hhigh. apply Z.le_antisymm.
  - assert (Hlt : (Qfloor x < n + 1)%Z).
    { rewrite Zlt_Qlt, inject_Z_plus. apply Qle_lt_trans with x; [apply Qfloor_le|].
      exact Hhigh. }
    lia.
  - rewrite <- (Qfloor_Z n). apply Qfloor_resp_le. exact Hlow.
Qed.

(** The digits [toFixed] gives a number between 0 and 100 are those of the
    number rounded to the nearest tenth. *)
Lemma toFixed_tenths (x : Q) :
  0 <= x -> x < 100 + (1 # 20) -> toFixed x 1 = show_tenths (round1 x).
Proof.
  intros Hlow Hhigh.
  assert (Hn : (0 <= Qfloor (x * 10 + (1 # 2)) <= 1000)%Z).
  { split.
    - change 0%Z with (Qfloor 0). apply Qfloor_resp_le. lra.
    - assert (Hlt : (Qfloor (x * 10 + (1 # 2)) < 1001)%Z).
      { rewrite Zlt_Qlt. apply Qle_lt_trans with (x * 10 + (1 # 2)); [apply Qfloor_le|].
        change (inject_Z 1001) with 1001. lra. }
      lia. }
  unfold toFixed, round1, Qlt_bool.
  replace (Qle_bool 0 x) with true by (symmetry; apply Qle_bool_iff, Hlow).
  replace (Qfloor (Qabs x * inject_Z (10 ^ Z.of_nat 1) + (1 # 2)))
    with (Qfloor (x * 10 + (1 # 2))).
  - cbn [negb]. rewrite (place_point_tenths _ Hn). reflexivity.
  - apply Qfloor_comp. rewrite (Qabs_pos _ Hlow). reflexivity.
Qed.

Lemma percent_rounds_the_product (v : Q) :
  0 <= v <= 1 -> percent v = (show_tenths (round1 (fmul v 100)) ++ "%")%string.
Proof.
  intros Hv. destruct (product_near v Hv) as (Hnonneg & Hnear).
  apply Qabs_Qle_condition in Hnear. unfold product_error in Hnear.
  unfold percent. rewrite toFixed_tenths; [reflexivity | exact Hnonneg |].
  destruct Hv as [_ Hhigh]. lra.
Qed.

(** C8, the claim as stated, fails.  The rate the program holds for the
    decimal 0.0015 is a little above 0.0015, so one hundred times the rate
    is above 0.15 and rounds to 0.2; the product the program computes is the
    binary64 number just below 0.15, and the text shown is [0.1%]. *)
Lemma binary_product_misses_the_tenth :
  ~ (forall v : Q, 0 <= v <= 1 -> percent v = spec_percentage v).
Proof.
  intros claim.
  assert (Hv : 0 <= number 0.0015 <= 1) by (split; vm_compute; discriminate).
  specialize (claim (number 0.0015) Hv).
  assert (Hshown : percent (number 0.0015) = "0.1%"%string) by (vm_compute; reflexivity).
  assert (Hspec : spec_percentage (number 0.0015) = "0.2%"%string)
    by (vm_compute; reflexivity).
  rewrite Hshown, Hspec in claim. discriminate claim.
Qed.

(** C8, amended. A rate or probability between 0 and 1 is shown as the
    product of the rate and 100 as the program computes it, in binary64,
    rounded to one decimal (the nearest tenth, the upper one on a tie) and
    followed by a percent sign.  That product is within [2^-45] of the exact
    one, so the text is the exactly rounded percentage [spec_percentage]
    whenever the exact value is not that close to the middle between two
    tenths.  The Turnover Rate cards of the overview and of the Analytics
    view show the same text as the expression used throughout the
    dashboards. *)
Theorem percentage_is_rounded_to_one_decimal (v : Q) :
  0 <= v <= 1 ->
  percent v = (show_tenths (round1 (fmul v 100)) ++ "%")%string /\
  Qabs (fmul v 100 - v * 100) <= product_error /\
  (let t := v * 100 * 10 + (1 # 2) in
   10 * product_error <= t - inject_Z (Qfloor t) ->
   t - inject_Z (Qfloor t) < 1 - 10 * product_error ->
   percent v = spec_percentage v) /\
  (forall stats, turnover_rate stats = v -> Dashboard.turnover_rate_text stats = percent v) /\
  (forall a, turnover_rate a = v -> analytics_turnover_rate_text (Some a) = percent v).
Proof.
  intros Hv. pose proof (percent_rounds_the_product v Hv) as Hshown.
  destruct (product_near v Hv) as (Hnonneg & Hnear).
  repeat apply conj; [exact Hshown | exact Hnear | | |].
  - intros t Hbelow Habove. rewrite Hshown. unfold spec_percentage, round1.
    fold t. replace (Qfloor (fmul v 100 * 10 + (1 # 2))) with (Qfloor t); [reflexivity|].
    symmetry. apply Qfloor_unique.
    + apply Qabs_Qle_condition in Hnear. unfold product_error in *. unfold t in *. lra.
    + apply Qabs_Qle_condition in Hnear. unfold product_error in *. unfold t in *. lra.
  - intros stats <-. reflexivity.
  - intros a <-. unfold analytics_turnover_rate_text.
    destruct (Qeq_bool (number (turnover_rate a)) 0) eqn:Hzero; cbn [negb]; [|reflexivity].
    apply Qeq_bool_eq in Hzero. unfold percent, fmul.
    assert (Hproduct : Qeq_bool (number (turnover_rate a) * number 100) 0 = true).
    { apply Qeq_bool_iff. rewrite Hzero. reflexivity. }
    unfold round64 at 1. rewrite Hproduct. reflexivity.
Qed.

Lemma percentage_is_rounded_to_one_decimal_witness :
  percent 0.238 = "23.8%"%string /\ percent 0.0305 = "3.0%"%string.
Proof.
  assert (Hv : 0 <= 0.238 <= 1) by (split; discriminate).
  assert (Hw : 0 <= 0.0305 <= 1) by (split; discriminate).
  destruct (percentage_is_rounded_to_one_decimal 0.238 Hv) as (_ & _ & Hexact & _).
  destruct (percentage_is_rounded_to_one_decimal 0.0305 Hw) as (Hshown & _).
  split.
  - rewrite Hexact; [reflexivity | vm_compute; discriminate | reflexivity].
  - rewrite Hshown. vm_compute. reflexivity.
Defined.

Lemma round1_is_nearest (x : Q) : Qabs (round1 x - x) <= 1 # 20.
Proof.
  unfold round1. set (y := x * 10 + (1 # 2)).
  pose proof (Qfloor_le y) as Hlo. pose proof (Qlt_floor y) as Hhi.
  rewrite inject_Z_plus in Hhi.
  assert (Hten : (Qfloor y # 10) == inject_Z (Qfloor y) * (1 # 10))
    by (unfold Qeq, Qmult, inject_Z; cbn; lia).
  rewrite Hten. clear Hten. unfold y in *. clear y.
  set (n := inject_Z (Qfloor (x * 10 + (1 # 2)))) in *. clearbody n.
  change (inject_Z 1) with 1 in Hhi.
  apply Qabs_case; intros _; lra.
Qed.

Local Close Scope Q_scope.

(** ** The High Risk table *)

Section HighRiskTableFacts.

Variable formatPercentage : Q -> string.
Variable formatDateTime : string -> string.

Let render := HighRiskTable.render formatPercentage formatDateTime.
Let row := HighRiskTable.row formatPercentage formatDateTime.

Lemma rows_have_no_heading (data : list HighRiskTable.Row) :
  list_sum (List.map (count_tag "h3") (List.map row data)) = 0.
Proof.
  induction data as [|employee data IH]; [reflexivity|].
  cbn. exact IH.
Qed.

Lemma rows_are_table_rows (data : list HighRiskTable.Row) :
  list_sum (List.map (count_tag "tr") (List.map row data)) = List.length data.
Proof.
  induction data as [|employee data IH]; [reflexivity|].
  cbn. f_equal. exact IH.
Qed.

(** C9. Given an empty list the table renders, below the header row and
    an empty body, its empty state: the heading "No High Risk Employees"
    and the line under it, with the count "(0 employees)" in the title.
    The component has no error branch; the heading of the empty state is
    there exactly when the list is empty, and the body has one row per
    element. *)
Theorem empty_high_risk_list_shows_empty_state :
  texts (render []) =
    [ "⚠️"; "High Risk Employees"; "(0 employees)";
      "Employee"; "Department"; "Salary"; "Risk Level"; "Probability"; "Predicted";
      "✅"; "No High Risk Employees";
      "Great news! All employees are currently in safe zones." ] /\
  count_tag "tr" (render []) = 1 /\
  forall data : list HighRiskTable.Row,
    count_tag "h3" (render data) = (if data is [] then 1 else 0) /\
    count_tag "tr" (render data) = S (List.length data).
Proof.
  split; [reflexivity|]. split; [reflexivity|].
  intros data. subst render. unfold HighRiskTable.render.
  cbn [count_tag List.map list_sum String.eqb Ascii.eqb Bool.eqb].
  change (HighRiskTable.row formatPercentage formatDateTime) with row.
  rewrite !List.map_app, !list_sum_app; cbn [List.map list_sum count_tag].
  rewrite rows_have_no_heading, rows_are_table_rows.
  destruct data as [|employee data]; cbn; lia.
Qed.

End HighRiskTableFacts.

(** ** The demo prediction *)







(** * Further properties of the components *)

(** ** Handlers settle *)

(** X1. When every call a handler awaits settles, by resolving or by
    rejecting (the model has no call that stays pending), the handler
    completes normally: none lets an exception escape.  And every handler
    that raises a flag, [loading] or [trainingInProgress], has lowered it
    when it completes.  The list is that of all handlers of the views that
    await a call. *)
Theorem view_handlers_always_settle (env : Env) (ls : gmap string string) :
  (forall s, let r := run (EmployeesDashboard.fetchEmployees env) s ls in
     completion r = Normal tt /\ EmployeesDashboard.loading (state r) = false) /\
  (forall s id, let r := run (EmployeesDashboard.fetchEmployeeDetails env id) s ls in
     completion r = Normal tt /\ EmployeesDashboard.loading (state r) = false) /\
  (forall s, let r := run (EmployeesDashboard.createEmployee env) s ls in
     completion r = Normal tt /\ EmployeesDashboard.loading (state r) = false) /\
  (forall s id, let r := run (PredictionsDashboard.fetchEmployeePredictions env id) s ls in
     completion r = Normal tt /\ PredictionsDashboard.loading (state r) = false) /\
  (forall s, let r := run (PredictionsDashboard.predictTurnover env) s ls in
     completion r = Normal tt /\ PredictionsDashboard.loading (state r) = false) /\
  (forall s, let r := run (PredictionsDashboard.refreshAllData env) s ls in
     completion r = Normal tt /\ PredictionsDashboard.loading (state r) = false) /\
  (forall s, let r := run (PredictionsDashboard.fetchHighRiskEmployees env) s ls in
     completion r = Normal tt /\
     PredictionsDashboard.loading (state r) = PredictionsDashboard.loading s) /\
  (forall s, let r := run (AnalyticsDashboard.fetchAnalyticsData env) s ls in
     completion r = Normal tt /\ AnalyticsDashboard.loading (state r) = false) /\
  (forall s, let r := run (AdminDashboard.fetchSystemStatus env) s ls in
     completion r = Normal tt /\ AdminDashboard.loading (state r) = false) /\
  (forall s, let r := run (AdminDashboard.trainModels env) s ls in
     completion r = Normal tt /\ AdminDashboard.trainingInProgress (state r) = false) /\
  (forall s, let r := run (Dashboard.fetchDashboardStats env) s ls in
     completion r = Normal tt /\ Dashboard.loading (state r) = false) /\
  (forall s, let r := run (LoginPage.handleLogin env) s ls in
     completion r = Normal tt /\ LoginPage.loading (state r) = false) /\
  (forall s num, completion (run (LandingPage.handleLogin env num) s ls) = Normal tt) /\
  (forall s, completion (run (Navigation.handleLogout env) s ls) = Normal tt).
Proof.
  repeat apply conj; intros s.
  - unfold EmployeesDashboard.fetchEmployees. exec; split; reflexivity.
  - intros id. unfold EmployeesDashboard.fetchEmployeeDetails. exec; split; reflexivity.
  - unfold EmployeesDashboard.createEmployee, EmployeesDashboard.fetchEmployees_started,
      EmployeesDashboard.fetchEmployees_resumed.
    exec; split; reflexivity.
  - intros id. unfold PredictionsDashboard.fetchEmployeePredictions. exec; split; reflexivity.
  - unfold PredictionsDashboard.predictTurnover. exec; split; reflexivity.
  - unfold PredictionsDashboard.refreshAllData, PredictionsDashboard.fetchHighRiskEmployees,
      PredictionsDashboard.predictTurnover, PredictionsDashboard.fetchEmployeePredictions.
    destruct s as [preds risky [result|] busy tab id form];
      destruct (String.eqb id "") eqn:Hid;
      autounfold with handlers; step; rewrite ?Hid; exec; split; reflexivity.
  - unfold PredictionsDashboard.fetchHighRiskEmployees. exec; split; reflexivity.
  - intros r.
    destruct (fetchAnalyticsData_settled env s (mkWorld ls [])) as (Hdone & Hloading & _).
    split; assumption.
  - unfold AdminDashboard.fetchSystemStatus. exec; split; reflexivity.
  - unfold AdminDashboard.trainModels, AdminDashboard.fetchSystemStatus.
    exec; split; reflexivity.
  - unfold Dashboard.fetchDashboardStats. exec; split; reflexivity.
  - unfold LoginPage.handleLogin. exec; split; reflexivity.
  - intros num. unfold LandingPage.handleLogin. exec; reflexivity.
  - unfold Navigation.handleLogout. exec; reflexivity.
Qed.

(** Runs a handler when every request gets the answer [Hall] states. *)
Ltac exec_answered Hall :=
  autounfold with handlers; step; repeat (rewrite Hall; step).

(** ** The employee list *)

(** X2. What [fetchEmployees] makes of a body that parses, whatever the
    status of the response: the [employees] property when it is there and
    truthy, the empty list when the body has no such property, and the demo
    employees when the body is [null] (reading the property throws). *)
Theorem fetchEmployees_reads_the_employees_property
    (env : Env) (ls : gmap string string) (s : EmployeesDashboard.State)
    (status : Z) (data : Json) :
  (forall q, fetch_reply env q = Response status (Some data)) ->
  let r := run (EmployeesDashboard.fetchEmployees env) s ls in
  (forall listed, prop "employees" data = Some listed -> truthy (Some listed) = true ->
     EmployeesDashboard.employees (state r) = listed /\ console_errors (trace (world r)) = []) /\
  (prop "employees" data = None -> data <> JNull ->
     EmployeesDashboard.employees (state r) = JArr [] /\ console_errors (trace (world r)) = []) /\
  (data = JNull ->
     EmployeesDashboard.employees (state r) = EmployeesDashboard.demo_employees /\
     console_errors (trace (world r)) = ["Error fetching employees:"]).
Proof.
  intros Hall r. subst r. unfold EmployeesDashboard.fetchEmployees.
  exec_answered Hall. repeat apply conj.
  - intros listed Hprop Htruthy. destruct data; try discriminate Hprop.
    cbn in Hprop. step. rewrite Hprop.
    destruct listed; try discriminate Htruthy; cbn in Htruthy |- *;
      try rewrite Htruthy; split; reflexivity.
  - intros Hprop Hnull. destruct data; try congruence; step;
      try (split; reflexivity).
    cbn in Hprop. rewrite Hprop. split; reflexivity.
  - intros ->. split; reflexivity.
Qed.

Lemma fetchEmployees_reads_the_employees_property_witness :
  EmployeesDashboard.employees
    (state (run (EmployeesDashboard.fetchEmployees Samples.env_listing)
              EmployeesDashboard.initial ∅))
    = JArr [Samples.employee_7; Samples.employee_7] /\
  EmployeesDashboard.employees
    (state (run (EmployeesDashboard.fetchEmployees Samples.env_partial)
              EmployeesDashboard.initial ∅)) = JArr [].
Proof.
  split.
  - destruct (fetchEmployees_reads_the_employees_property Samples.env_listing ∅
                EmployeesDashboard.initial 200%Z _ (fun _ => eq_refl)) as (Hlisted & _ & _).
    apply (Hlisted (JArr [Samples.employee_7; Samples.employee_7])); reflexivity.
  - destruct (fetchEmployees_reads_the_employees_property Samples.env_partial ∅
                EmployeesDashboard.initial 200%Z _ (fun _ => eq_refl)) as (_ & Hmissing & _).
    apply Hmissing; [reflexivity | discriminate].
Defined.

(** ** The details of one employee *)

(** X3. The three requests of [fetchEmployeeDetails] go out one after the
    other and fail as a whole: when the employee is served and the request
    for the prediction history then throws, the third request is never sent
    and all three resources, the employee just received included, are
    replaced by the demo values made for that id. *)
Theorem employee_details_fail_as_a_whole
    (env : Env) (ls : gmap string string) (s : EmployeesDashboard.State)
    (employeeId : string) (status : Z) (employee : Json) :
  let token := ls !! "token" in
  let first := EmployeesDashboard.authorized "GET"
                 ("http://localhost:8000/api/v1/employees/" ++ employeeId) token in
  let second := EmployeesDashboard.authorized "GET"
                  ("http://localhost:8000/api/v1/predictions/employee/" ++ employeeId) token in
  fetch_reply env first = Response status (Some employee) ->
  fetch_throws (fetch_reply env second) = true ->
  let r := run (EmployeesDashboard.fetchEmployeeDetails env employeeId) s ls in
  requests (trace (world r)) = [EvFetch first; EvFetch second] /\
  EmployeesDashboard.selectedEmployee (state r)
    = Some (EmployeesDashboard.demo_selectedEmployee employeeId) /\
  EmployeesDashboard.employeePredictions (state r)
    = EmployeesDashboard.demo_employeePredictions employeeId /\
  EmployeesDashboard.retentionStrategies (state r)
    = EmployeesDashboard.demo_retentionStrategies employeeId.
Proof.
  intros token first second Hfirst Hsecond r. subst r token first second.
  unfold EmployeesDashboard.fetchEmployeeDetails.
  autounfold with handlers; step. rewrite Hfirst; step.
  destruct (fetch_reply env _) as [e|status2 [body|]] in Hsecond |- *;
    try discriminate Hsecond; step; repeat split; reflexivity.
Qed.

Lemma employee_details_fail_as_a_whole_witness :
  EmployeesDashboard.selectedEmployee
    (state (run (EmployeesDashboard.fetchEmployeeDetails Samples.env_details_only "EMP7")
              EmployeesDashboard.initial ∅))
    = Some (EmployeesDashboard.demo_selectedEmployee "EMP7") /\
  List.length
    (requests (trace (world
       (run (EmployeesDashboard.fetchEmployeeDetails Samples.env_details_only "EMP7")
          EmployeesDashboard.initial ∅)))) = 2.
Proof.
  destruct (employee_details_fail_as_a_whole Samples.env_details_only ∅
              EmployeesDashboard.initial "EMP7" 200%Z Samples.employee_7
              eq_refl eq_refl) as (Hsent & Hselected & _).
  split; [exact Hselected|]. rewrite Hsent. reflexivity.
Defined.

(** ** Creating an employee *)

(** The two parts of [fetchEmployees] one after the other are
    [fetchEmployees]. *)
Lemma fetchEmployees_in_two_parts
    (env : Env) (s : EmployeesDashboard.State) (w : World) :
  (sent <-- EmployeesDashboard.fetchEmployees_started ;;
   EmployeesDashboard.fetchEmployees_resumed env sent) s w
  = EmployeesDashboard.fetchEmployees env s w.
Proof.
  unfold EmployeesDashboard.fetchEmployees, EmployeesDashboard.fetchEmployees_started,
    EmployeesDashboard.fetchEmployees_resumed.
  exec; reflexivity.
Qed.

(** X4. The three ways [createEmployee] ends.  On a 2xx answer the form is
    back to its initial values, the list is requested again right after the
    POST, and the success alert is shown, before the answer to the list
    request is handled.  On any other status the form keeps what was typed,
    nothing else is requested and the failure alert is shown; without a
    response the same holds with the error alert.  The handler never leaves
    the tab it was started from: it lowers the flag [showAddForm], which
    nothing reads, and does not touch [activeTab], which decides what is
    shown. *)
Theorem createEmployee_outcomes
    (env : Env) (ls : gmap string string) (s : EmployeesDashboard.State) :
  let sent := EmployeesDashboard.create_request env (EmployeesDashboard.formData s)
                (ls !! "token") in
  let listing := EmployeesDashboard.authorized "GET"
                   "http://localhost:8000/api/v1/employees/" (ls !! "token") in
  let r := run (EmployeesDashboard.createEmployee env) s ls in
  EmployeesDashboard.activeTab (state r) = EmployeesDashboard.activeTab s /\
  match fetch_reply env sent with
  | Response status _ =>
      if response_ok status then
        EmployeesDashboard.formData (state r) = EmployeesDashboard.initial_formData /\
        requests (trace (world r)) = [EvFetch sent; EvFetch listing] /\
        alerts (trace (world r)) = ["Employee created successfully!"] /\
        take 3 (trace (world r))
          = [EvFetch sent; EvFetch listing; EvAlert "Employee created successfully!"]
      else
        EmployeesDashboard.formData (state r) = EmployeesDashboard.formData s /\
        requests (trace (world r)) = [EvFetch sent] /\
        alerts (trace (world r)) = ["Failed to create employee. Please try again."]
  | NoResponse _ =>
      EmployeesDashboard.formData (state r) = EmployeesDashboard.formData s /\
      requests (trace (world r)) = [EvFetch sent] /\
      alerts (trace (world r)) = ["Error creating employee. Please try again."]
  end.
Proof.
  intros sent listing r. subst r sent listing.
  unfold EmployeesDashboard.createEmployee, EmployeesDashboard.fetchEmployees_started,
    EmployeesDashboard.fetchEmployees_resumed.
  exec; repeat split; reflexivity.
Qed.

(** ** The session, from login to logout *)

(** X6. The check of the two guarded pages is only that a non-empty token is
    stored: with any such string the dashboard page marks the session
    authenticated, asks for the overview statistics once and, when that call
    has settled either way, shows the overview; the admin page mounts its
    dashboard, which asks for the system status once.  Neither redirects. *)
Theorem guard_accepts_any_stored_token
    (env : Env) (ls : gmap string string) (t : string) :
  ls !! "token" = Some t -> t <> "" ->
  let d := run (Dashboard.mount env) Dashboard.initial ls in
  let a := run (AdminPage.mount env) AdminPage.initial ls in
  (redirects (trace (world d)) = [] /\
   requests (trace (world d)) = [EvApiCall "getDashboardAnalytics"] /\
   Dashboard.render (state d) = Dashboard.ActiveView "overview") /\
  (redirects (trace (world a)) = [] /\
   requests (trace (world a)) = [EvApiCall "getSystemStatus"] /\
   AdminPage.isAuthenticated (state a) = true).
Proof.
  intros Hstored Hnonempty d a. subst d a.
  assert (Hguard : no_token (Some t) = false).
  { unfold no_token. apply String.eqb_neq. exact Hnonempty. }
  unfold Dashboard.mount, Dashboard.effect, Dashboard.fetchDashboardStats,
    AdminPage.mount, AdminPage.effect, AdminDashboard.effect,
    AdminDashboard.fetchSystemStatus.
  split.
  - autounfold with handlers; step. rewrite Hstored, Hguard.
    exec; repeat split; reflexivity.
  - autounfold with handlers; step. rewrite Hstored, Hguard.
    exec; repeat split; reflexivity.
Qed.

Lemma guard_accepts_any_stored_token_witness :
  requests (trace (world (run (Dashboard.mount Samples.env_down) Dashboard.initial
                            {["token" := "demo-token"]})))
    = [EvApiCall "getDashboardAnalytics"].
Proof.
  assert (Hstored : ({["token" := "demo-token"]} : gmap string string) !! "token"
                    = Some "demo-token") by reflexivity.
  assert (Hnonempty : "demo-token" <> "") by discriminate.
  destruct (guard_accepts_any_stored_token Samples.env_down {["token" := "demo-token"]}
              "demo-token" Hstored Hnonempty) as ((_ & Hsent & _) & _).
  exact Hsent.
Defined.

(** X7. A token that is stored as the empty string counts as no token:
    both guarded pages redirect to the landing route without a request, and
    the top bar stays hidden. *)
Theorem empty_token_counts_as_absent (env : Env) (ls : gmap string string) :
  ls !! "token" = Some "" ->
  trace (activate DashboardView env ls) = [EvLocationHref "/landing"] /\
  trace (activate AdminView env ls) = [EvRouterPush "/landing"] /\
  Navigation.visible (state (run Navigation.effect Navigation.initial ls)) = false.
Proof.
  intros Hempty.
  unfold activate, Dashboard.mount, Dashboard.effect, AdminPage.mount, AdminPage.effect,
    Navigation.effect.
  autounfold with handlers. step. rewrite Hempty. repeat split; reflexivity.
Qed.

Lemma empty_token_counts_as_absent_witness :
  trace (activate DashboardView Samples.env_up {["token" := ""]})
    = [EvLocationHref "/landing"].
Proof.
  assert (Hempty : ({["token" := ""]} : gmap string string) !! "token" = Some "")
    by reflexivity.
  destruct (empty_token_counts_as_absent Samples.env_up {["token" := ""]} Hempty)
    as (Hdashboard & _).
  exact Hdashboard.
Defined.

(** X8. Logging out closes the guarded pages: after [handleLogout], however
    the server's logout call went and whatever it did to the storage, the
    browser is sent to [/login], and on the storage that is left the
    dashboard page and the admin page redirect to the landing route without
    a request and the top bar is not rendered. *)
Theorem logout_closes_guarded_pages
    (env next : Env) (s : Navigation.State) (ls : gmap string string) :
  let out := world (run (Navigation.handleLogout env) s ls) in
  redirects (trace out) = [EvLocationHref "/login"] /\
  trace (activate DashboardView next (localStorage out)) = [EvLocationHref "/landing"] /\
  trace (activate AdminView next (localStorage out)) = [EvRouterPush "/landing"] /\
  Navigation.visible
    (state (run Navigation.effect Navigation.initial (localStorage out))) = false.
Proof.
  intros out.
  assert (Hgone : localStorage out !! "token" = None).
  { subst out. unfold Navigation.handleLogout. exec; apply lookup_delete_eq. }
  split.
  { subst out. unfold Navigation.handleLogout. exec; reflexivity. }
  clearbody out.
  destruct (guarded_pages_redirect next (localStorage out) Hgone) as (Hdashboard & Hadmin).
  repeat split; try assumption.
  unfold Navigation.effect. autounfold with handlers. step. rewrite Hgone. reflexivity.
Qed.

(** X9. The login page always ends on the dashboard route: it calls the
    client's login once, sends no request of its own, and redirects to
    [/dashboard] exactly once, whether the login resolved or rejected. *)
Theorem login_page_always_redirects_to_dashboard
    (env : Env) (s : LoginPage.State) (ls : gmap string string) :
  let r := run (LoginPage.handleLogin env) s ls in
  requests (trace (world r)) = [EvApiCall "login"] /\
  redirects (trace (world r)) = [EvLocationHref "/dashboard"] /\
  alerts (trace (world r)) = [].
Proof.
  unfold LoginPage.handleLogin. exec; repeat split; reflexivity.
Qed.

(** X10. A rejected login opens the application in demo mode: the page
    shows its demo-mode message, and on the storage it leaves the dashboard
    page finds the session authenticated and does not redirect, and the top
    bar is rendered. *)
Theorem failed_login_enters_demo_mode
    (env next : Env) (s : LoginPage.State) (ls : gmap string string) :
  rejected (api_login (apiClient env) (LoginPage.email s) (LoginPage.password s)) = true ->
  let r := run (LoginPage.handleLogin env) s ls in
  let d := run (Dashboard.mount next) Dashboard.initial (localStorage (world r)) in
  LoginPage.error (state r) = "Invalid credentials. Using demo mode..." /\
  console_errors (trace (world r)) = ["Login error:"] /\
  Dashboard.isAuthenticated (state d) = true /\
  redirects (trace (world d)) = [] /\
  Navigation.visible
    (state (run Navigation.effect Navigation.initial (localStorage (world r)))) = true.
Proof.
  intros Hrejected r.
  assert (Hstored : localStorage (world r) !! "token" = Some "demo-token").
  { subst r. revert Hrejected. unfold LoginPage.handleLogin, rejected.
    exec; intros Hrejected; try discriminate Hrejected. apply lookup_insert_eq. }
  assert (Hpage : LoginPage.error (state r) = "Invalid credentials. Using demo mode..." /\
                  console_errors (trace (world r)) = ["Login error:"]).
  { subst r. revert Hrejected. unfold LoginPage.handleLogin, rejected.
    exec; intros Hrejected; try discriminate Hrejected. split; reflexivity. }
  clearbody r. destruct Hpage as (Herror & Hlogged). intros d. subst d.
  repeat apply conj; try assumption.
  - unfold Dashboard.mount, Dashboard.effect, Dashboard.fetchDashboardStats.
    autounfold with handlers; step. rewrite Hstored. exec; reflexivity.
  - unfold Dashboard.mount, Dashboard.effect, Dashboard.fetchDashboardStats.
    autounfold with handlers; step. rewrite Hstored. exec; reflexivity.
  - unfold Navigation.effect. autounfold with handlers; step. rewrite Hstored. reflexivity.
Qed.

Lemma failed_login_enters_demo_mode_witness :
  Dashboard.isAuthenticated
    (state (run (Dashboard.mount Samples.env_down) Dashboard.initial
              (localStorage (world (run (LoginPage.handleLogin Samples.env_down)
                                      LoginPage.initial ∅))))) = true.
Proof.
  destruct (failed_login_enters_demo_mode Samples.env_down Samples.env_down
              LoginPage.initial ∅ eq_refl) as (_ & _ & Hauthenticated & _).
  exact Hauthenticated.
Defined.

(** X11. A login from the landing page sends its one request and then
    either goes on or reports, never both and never neither: it redirects to
    [/dashboard] with the token written and no alert, or it shows exactly
    one alert, does not redirect and leaves the storage as it was. *)
Theorem landing_login_redirects_or_alerts
    (env : Env) (num : Q -> string) (s : LandingPage.State) (ls : gmap string string) :
  let r := run (LandingPage.handleLogin env num) s ls in
  requests (trace (world r)) = [EvFetch (LandingPage.login_request s)] /\
  ((redirects (trace (world r)) = [EvLocationHref "/dashboard"] /\
    alerts (trace (world r)) = [] /\
    is_Some (token_of (world r))) \/
   (redirects (trace (world r)) = [] /\
    (alerts (trace (world r)) = ["Invalid credentials. Please try again."] \/
     alerts (trace (world r)) = ["Login failed. Please try again."]) /\
    localStorage (world r) = ls)).
Proof.
  unfold LandingPage.handleLogin.
  exec; (split; [reflexivity|]);
    first [ left; repeat split; try reflexivity; rewrite lookup_insert_eq; eauto
          | right; repeat split; auto ].
Qed.

(** X12. A 2xx answer to the landing login whose body is an object
    without [access_token] still logs in: the token that is stored is the
    text [undefined], and the dashboard page takes it for a session. *)
Theorem landing_login_without_access_token
    (env next : Env) (num : Q -> string) (s : LandingPage.State)
    (ls : gmap string string) (status : Z) (body : gmap string Json) :
  fetch_reply env (LandingPage.login_request s) = Response status (Some (JObj body)) ->
  response_ok status = true ->
  body !! "access_token" = None ->
  let r := run (LandingPage.handleLogin env num) s ls in
  let d := run (Dashboard.mount next) Dashboard.initial (localStorage (world r)) in
  token_of (world r) = Some "undefined" /\
  redirects (trace (world r)) = [EvLocationHref "/dashboard"] /\
  Dashboard.isAuthenticated (state d) = true /\
  redirects (trace (world d)) = [].
Proof.
  intros Hreply Hok Hmissing r.
  assert (Hrun : token_of (world r) = Some "undefined" /\
                 redirects (trace (world r)) = [EvLocationHref "/dashboard"]).
  { subst r. unfold LandingPage.handleLogin.
    autounfold with handlers; step. rewrite Hreply; step. rewrite Hok; step.
    rewrite Hmissing. step. split; [apply lookup_insert_eq | reflexivity]. }
  clearbody r. destruct Hrun as (Hstored & Hredirect). intros d. subst d.
  unfold token_of in Hstored.
  repeat apply conj; try assumption.
  - unfold Dashboard.mount, Dashboard.effect, Dashboard.fetchDashboardStats.
    autounfold with handlers; step. rewrite Hstored. exec; reflexivity.
  - unfold Dashboard.mount, Dashboard.effect, Dashboard.fetchDashboardStats.
    autounfold with handlers; step. rewrite Hstored. exec; reflexivity.
Qed.

Lemma landing_login_without_access_token_witness :
  token_of (world (run (LandingPage.handleLogin Samples.env_partial (fun _ => "0"))
                     LandingPage.initial ∅)) = Some "undefined".
Proof.
  destruct (landing_login_without_access_token Samples.env_partial Samples.env_partial
              (fun _ => "0") LandingPage.initial ∅ 200%Z ∅ eq_refl eq_refl eq_refl)
    as (Hstored & _).
  exact Hstored.
Defined.

(** X13. The token the landing login stores is the one the views send:
    when the login is answered with a 2xx status and [access_token] is the
    string [t], the list of employees is afterwards requested with the
    header [Authorization: Bearer t]. *)
Theorem landing_token_reaches_authorization_header
    (env next : Env) (num : Q -> string) (s : LandingPage.State)
    (view : EmployeesDashboard.State)
    (ls : gmap string string) (status : Z) (body : gmap string Json) (t : string) :
  fetch_reply env (LandingPage.login_request s) = Response status (Some (JObj body)) ->
  response_ok status = true ->
  body !! "access_token" = Some (JStr t) ->
  let stored := localStorage (world (run (LandingPage.handleLogin env num) s ls)) in
  let sent := mkRequest "GET" "http://localhost:8000/api/v1/employees/"
                [("Authorization", "Bearer " ++ t)] NoBody in
  requests (trace (world (run (EmployeesDashboard.fetchEmployees next) view stored)))
    = [EvFetch sent].
Proof.
  intros Hreply Hok Hfound stored sent.
  assert (Hstored : stored !! "token" = Some t).
  { subst stored. unfold LandingPage.handleLogin.
    autounfold with handlers; step. rewrite Hreply; step. rewrite Hok; step.
    rewrite Hfound. step. apply lookup_insert_eq. }
  clearbody stored. subst sent.
  unfold EmployeesDashboard.fetchEmployees, EmployeesDashboard.authorized, bearer.
  autounfold with handlers; step. rewrite Hstored. exec; reflexivity.
Qed.

Lemma landing_token_reaches_authorization_header_witness :
  requests (trace (world
    (run (EmployeesDashboard.fetchEmployees Samples.env_listing) EmployeesDashboard.initial
       (localStorage (world (run (LandingPage.handleLogin Samples.env_up (fun _ => "0"))
                               LandingPage.initial ∅))))))
    = [EvFetch (mkRequest "GET" "http://localhost:8000/api/v1/employees/"
                  [("Authorization", "Bearer jwt-1")] NoBody)].
Proof.
  apply (landing_token_reaches_authorization_header Samples.env_up Samples.env_listing
           (fun _ => "0") LandingPage.initial EmployeesDashboard.initial ∅ 200%Z
           {["access_token" := JStr "jwt-1"]} "jwt-1");
    reflexivity.
Defined.

(** ** Labels, colours and filters *)

Lemma includes_empty (s : string) : includes "" s = true.
Proof. destruct s; reflexivity. Qed.

Lemma lower_ascii_idempotent (c : ascii) : lower_ascii (lower_ascii c) = lower_ascii c.
Proof. destruct c as [[] [] [] [] [] [] [] []]; reflexivity. Qed.

Lemma toLowerCase_idempotent (s : string) : toLowerCase (toLowerCase s) = toLowerCase s.
Proof.
  induction s as [|c s IH]; [reflexivity|].
  cbn [toLowerCase]. rewrite lower_ascii_idempotent, IH. reflexivity.
Qed.

Lemma filter_both {A} (f g : A -> bool) (l : list A) :
  List.filter (fun x => f x && g x) l = List.filter f (List.filter g l).
Proof.
  induction l as [|x l IH]; [reflexivity|].
  cbn [List.filter]. destruct (g x); cbn [List.filter].
  - rewrite andb_true_r. destruct (f x); rewrite IH; reflexivity.
  - rewrite andb_false_r. exact IH.
Qed.

Lemma set_add_fold (values seen : list string) :
  NoDup seen ->
  NoDup (fold_left set_add values seen) /\
  (forall x, x ∈ fold_left set_add values seen <-> x ∈ seen \/ x ∈ values).
Proof.
  revert seen. induction values as [|v values IH]; intros seen Hseen; cbn [fold_left].
  - split; [assumption|]. intros x. rewrite elem_of_nil. tauto.
  - assert (Hnext : NoDup (set_add seen v)).
    { unfold set_add. destruct (decide (v ∈ seen)) as [|Hnew]; [assumption|].
      apply NoDup_app. repeat split; [assumption| |apply NoDup_singleton].
      intros x Hx Hv. apply list_elem_of_singleton in Hv. subst x. contradiction. }
    destruct (IH _ Hnext) as (Hnodup & Hmember). split; [assumption|].
    intros x. rewrite Hmember, elem_of_cons. unfold set_add.
    destruct (decide (v ∈ seen)) as [Hold|Hnew].
    + split; [tauto|]. intros [?|[->|?]]; auto.
    + rewrite elem_of_app, list_elem_of_singleton. tauto.
Qed.

(** X14. The search of the employee list, for a search term and for
    employee ids and departments made of ASCII characters.  With no search
    term and both filters on All, every employee is listed.  The three
    criteria are independent: filtering by all of them is filtering by each
    in turn.  And the case of the letters of the search term does not
    matter: two terms that differ in the case of their letters only select
    the same employees. *)
Theorem employee_filters_are_independent
    (searchTerm filterDepartment filterSalary : string)
    (listed : list EmployeesDashboard.Employee) :
  ascii_only searchTerm = true ->
  (forall e, In e listed ->
     ascii_only (EmployeesDashboard.employee_id e) = true /\
     ascii_only (EmployeesDashboard.department e) = true) ->
  EmployeesDashboard.filteredEmployees "" "" "" listed = listed /\
  EmployeesDashboard.filteredEmployees searchTerm filterDepartment filterSalary listed
    = EmployeesDashboard.filteredEmployees searchTerm "" ""
        (EmployeesDashboard.filteredEmployees "" filterDepartment ""
           (EmployeesDashboard.filteredEmployees "" "" filterSalary listed)) /\
  (forall other,
     ascii_only other = true -> toLowerCase other = toLowerCase searchTerm ->
     EmployeesDashboard.filteredEmployees other filterDepartment filterSalary listed
       = EmployeesDashboard.filteredEmployees searchTerm filterDepartment filterSalary
           listed).
Proof.
  intros _ _. unfold EmployeesDashboard.filteredEmployees. repeat apply conj.
  - induction listed as [|e listed IH]; [reflexivity|].
    cbn [List.filter]. unfold EmployeesDashboard.matches at 1.
    cbn [toLowerCase]. rewrite !includes_empty. cbn. rewrite IH. reflexivity.
  - rewrite <- !filter_both. apply List.filter_ext. intros e.
    unfold EmployeesDashboard.matches. cbn [toLowerCase String.eqb].
    rewrite !includes_empty. cbn [orb andb]. rewrite !andb_true_r.
    reflexivity.
  - intros other _ Hsame. apply List.filter_ext. intros e.
    unfold EmployeesDashboard.matches. rewrite Hsame. reflexivity.
Qed.

Lemma employee_filters_are_independent_witness :
  EmployeesDashboard.filteredEmployees "SALES" "" ""
    [ EmployeesDashboard.mkEmployee "EMP001" 0.38 0.53 2 157 3 0 0 "sales" "low"
        (Some 1%Q) None None;
      EmployeesDashboard.mkEmployee "EMP002" 0.80 0.86 5 262 6 0 0 "technical" "medium"
        (Some 0%Q) None None ]
  = EmployeesDashboard.filteredEmployees "sales" "" ""
      [ EmployeesDashboard.mkEmployee "EMP001" 0.38 0.53 2 157 3 0 0 "sales" "low"
          (Some 1%Q) None None;
        EmployeesDashboard.mkEmployee "EMP002" 0.80 0.86 5 262 6 0 0 "technical" "medium"
          (Some 0%Q) None None ].
Proof.
  destruct (employee_filters_are_independent "sales" "" ""
              [ EmployeesDashboard.mkEmployee "EMP001" 0.38 0.53 2 157 3 0 0 "sales" "low"
                  (Some 1%Q) None None;
                EmployeesDashboard.mkEmployee "EMP002" 0.80 0.86 5 262 6 0 0 "technical"
                  "medium" (Some 0%Q) None None ])
    as (_ & _ & Hcase).
  - reflexivity.
  - intros e [<-|[<-|[]]]; split; reflexivity.
  - apply Hcase; reflexivity.
Defined.

(** X15. The department dropdown offers every department of the list once,
    and nothing else; each department it offers selects at least one
    employee. *)
Theorem department_choices_come_from_the_list (listed : list EmployeesDashboard.Employee) :
  NoDup (EmployeesDashboard.departments listed) /\
  (forall d, d ∈ EmployeesDashboard.departments listed <->
             exists e, In e listed /\ EmployeesDashboard.department e = d) /\
  (forall d, d ∈ EmployeesDashboard.departments listed ->
             EmployeesDashboard.filteredEmployees "" d "" listed <> []).
Proof.
  unfold EmployeesDashboard.departments, distinct.
  destruct (set_add_fold (List.map EmployeesDashboard.department listed) [] (NoDup_nil_2))
    as (Hnodup & Hmember).
  assert (Hfrom : forall d,
    d ∈ fold_left set_add (List.map EmployeesDashboard.department listed) [] <->
    exists e, In e listed /\ EmployeesDashboard.department e = d).
  { intros d. rewrite Hmember, elem_of_nil, list_elem_of_In, List.in_map_iff.
    split.
    - intros [[]|(e & Hd & He)]. exists e. auto.
    - intros (e & He & Hd). right. exists e. auto. }
  repeat apply conj; [assumption | assumption |].
  intros d Hd. apply Hfrom in Hd. destruct Hd as (e & He & Hd).
  assert (Hkept : In e (EmployeesDashboard.filteredEmployees "" d "" listed)).
  { unfold EmployeesDashboard.filteredEmployees. apply List.filter_In. split; [assumption|].
    unfold EmployeesDashboard.matches. cbn [toLowerCase]. rewrite !includes_empty, Hd.
    rewrite !String.eqb_refl. destruct (String.eqb d ""); reflexivity. }
  intros Hnone. rewrite Hnone in Hkept. destruct Hkept.
Qed.

Lemma department_choices_come_from_the_list_witness :
  EmployeesDashboard.filteredEmployees "" "sales" ""
    [ EmployeesDashboard.mkEmployee "EMP001" 0.38 0.53 2 157 3 0 0 "sales" "low"
        (Some 1%Q) None None ] <> [].
Proof.
  destruct (department_choices_come_from_the_list
              [ EmployeesDashboard.mkEmployee "EMP001" 0.38 0.53 2 157 3 0 0 "sales" "low"
                  (Some 1%Q) None None ]) as (_ & _ & Hoffered).
  apply Hoffered. cbn. apply list_elem_of_here.
Defined.

(** X16. In the predictions view the short zone of a label and the colour
    of its badge are decided by the same tests, so they always go together:
    SAFE with green, LOW with yellow, MEDIUM with orange, HIGH with red and
    UNKNOWN with gray.  The tests are tried in this order, so a label with
    Green in it is SAFE whatever else it says. *)
Theorem risk_badge_and_colour_agree (risk : string) :
  In (PredictionsDashboard.getShortRiskZone risk, PredictionsDashboard.getRiskColor risk)
    [ ("SAFE", "bg-green-100 text-green-800");
      ("LOW", "bg-yellow-100 text-yellow-800");
      ("MEDIUM", "bg-orange-100 text-orange-800");
      ("HIGH", "bg-red-100 text-red-800");
      ("UNKNOWN", "bg-gray-100 text-gray-800") ] /\
  (includes "Green" risk = true -> PredictionsDashboard.getShortRiskZone risk = "SAFE").
Proof.
  unfold PredictionsDashboard.getShortRiskZone, PredictionsDashboard.getRiskColor.
  split.
  - destruct (includes "Safe Zone" risk || includes "Green" risk);
      [cbn; auto|].
    destruct (includes "Low Risk" risk || includes "Yellow" risk);
      [cbn; auto|].
    destruct (includes "Medium Risk" risk || includes "Orange" risk);
      [cbn; auto|].
    destruct (includes "High Risk" risk || includes "Red" risk);
      cbn; auto 6.
  - intros ->. rewrite orb_true_r. reflexivity.
Qed.

Lemma risk_badge_and_colour_agree_witness :
  PredictionsDashboard.getShortRiskZone "Low Risk Zone (Green)" = "SAFE".
Proof.
  destruct (risk_badge_and_colour_agree "Low Risk Zone (Green)") as (_ & Hgreen).
  apply Hgreen. reflexivity.
Defined.

(** X17. The status badges of the admin view do not depend on the case of
    the status, and they colour every health word the way the health badge
    does. *)
Theorem status_colour_ignores_case (status : string) :
  AdminDashboard.getStatusColor (toLowerCase status) = AdminDashboard.getStatusColor status /\
  (AdminDashboard.getHealthColor status <> "text-gray-600 bg-gray-100" ->
   AdminDashboard.getStatusColor status = AdminDashboard.getHealthColor status).
Proof.
  split.
  - unfold AdminDashboard.getStatusColor. rewrite toLowerCase_idempotent. reflexivity.
  - unfold AdminDashboard.getHealthColor.
    destruct (String.eqb_spec status "healthy") as [->|_]; [reflexivity|].
    destruct (String.eqb_spec status "warning") as [->|_]; [reflexivity|].
    destruct (String.eqb_spec status "critical") as [->|_]; [reflexivity|].
    intros Hgray. contradiction.
Qed.

Lemma status_colour_ignores_case_witness :
  AdminDashboard.getStatusColor "warning" = "text-yellow-600 bg-yellow-100".
Proof.
  destruct (status_colour_ignores_case "warning") as (_ & Hsame).
  rewrite Hsame; [reflexivity | discriminate].
Defined.

(** ** Navigation *)

(** X18. The sidebar marks an item only on its exact route: at most one
    item is active, and one is active exactly when the path is one of the
    five routes of the sidebar. *)
Theorem sidebar_marks_exact_routes (pathname : string) :
  (List.length (Sidebar.active_items pathname) <= 1)%nat /\
  (Sidebar.active_items pathname <> [] <->
   In pathname (List.map Sidebar.href Sidebar.navigation)).
Proof.
  unfold Sidebar.active_items, Sidebar.navigation, Sidebar.isActive.
  cbn [List.filter List.map Sidebar.href].
  repeat match goal with
         | |- context [String.eqb pathname ?h] =>
             destruct (String.eqb_spec pathname h) as [->|?]; cbn
         end;
    (split;
     [ lia
     | split;
       [ intros Hactive; first [solve [auto 10] | congruence]
       | intros Hroute; first [discriminate | intuition congruence] ] ]).
Qed.

(** X19. The top bar marks Dashboard on the root path only and every other
    item on each path that starts with its route; whatever the path, at
    most one item is marked. *)
Theorem top_bar_marks_by_prefix (pathname : string) :
  (List.length (Navigation.active_items pathname) <= 1)%nat /\
  (Navigation.isActive pathname "/" = true <-> pathname = "/") /\
  (forall item rest,
     In item Navigation.navigation -> Navigation.href item <> "/" ->
     Navigation.isActive (Navigation.href item ++ rest) (Navigation.href item) = true).
Proof.
  split; [|split].
  - unfold Navigation.active_items, Navigation.navigation, Navigation.isActive.
    cbn [List.filter Navigation.href].
    destruct pathname as [|c1 [|c2 [|c3 rest]]]; cbn -[ascii_dec Ascii.eqb];
      repeat match goal with
             | |- context [ascii_dec ?a ?b] =>
                 destruct (ascii_dec a b); try subst; cbn -[ascii_dec Ascii.eqb]
             | |- context [Ascii.eqb ?a ?b] =>
                 destruct (Ascii.eqb_spec a b); try subst; cbn -[ascii_dec Ascii.eqb]
             | |- context [if ?b then _ else _] => destruct b; cbn -[ascii_dec Ascii.eqb]
             end; try lia; try congruence.
  - unfold Navigation.isActive. cbn. apply String.eqb_eq.
  - intros item rest Hitem Hroot. unfold Navigation.isActive.
    cbn in Hitem. destruct Hitem as [<-|[<-|[<-|[<-|[]]]]]; cbn in *;
      try congruence; destruct rest; reflexivity.
Qed.

Lemma top_bar_marks_by_prefix_witness :
  Navigation.isActive "/employees/EMP7" "/employees" = true.
Proof.
  destruct (top_bar_marks_by_prefix "/employees/EMP7") as (_ & _ & Hprefix).
  apply (Hprefix (Navigation.mkNavItem "Employees" "/employees") "/EMP7").
  - cbn. auto.
  - discriminate.
Defined.

(** ** The cells of the high-risk table *)

Lemma substring_after (s t : string) (n : nat) :
  String.substring (String.length s) n (s ++ t) = String.substring 0 n t.
Proof. induction s as [|c s IH]; [reflexivity | exact IH]. Qed.

Lemma length_append (s t : string) :
  String.length (s ++ t) = (String.length s + String.length t)%nat.
Proof.
  induction s as [|c s IH]; [reflexivity|].
  change (S (String.length (s ++ t)) = S (String.length s + String.length t)).
  f_equal. exact IH.
Qed.

(** X20. The department cell replaces the first underscore of the name by
    a space and nothing else: a name without an underscore is shown as it
    is, and whatever follows the first underscore, further underscores
    included, is kept. *)
Theorem replace_underscore_first_only (a b : string) :
  includes "_" a = false ->
  replace_underscore a = a /\
  replace_underscore (a ++ "_" ++ b) = a ++ " " ++ b.
Proof.
  induction a as [|c a IH]; intros Hnone.
  - split; reflexivity.
  - cbn -[ascii_dec Ascii.eqb] in Hnone.
    apply orb_false_elim in Hnone. destruct Hnone as (Hhead & Htail).
    destruct (Ascii.eqb_spec c "_") as [->|Hother].
    + destruct a; discriminate Hhead.
    + destruct (IH Htail) as (Hsame & Hfirst).
      change (String c a ++ "_" ++ b) with (String c (a ++ "_" ++ b)).
      cbn [replace_underscore].
      destruct (Ascii.eqb_spec c "_") as [|_]; [contradiction|].
      rewrite Hsame, Hfirst. split; reflexivity.
Qed.

Lemma replace_underscore_first_only_witness :
  replace_underscore "product_mng_team" = "product mng_team".
Proof.
  destruct (replace_underscore_first_only "product" "mng_team" eq_refl) as (_ & Hfirst).
  exact Hfirst.
Defined.

(** X21. The initials in the avatar of a row, for an employee code of
    ASCII characters: they are the last two characters of the code; a code
    of one or two characters, or an empty one, is shown whole. *)
Theorem slice_last2_keeps_the_tail (s : string) :
  ascii_only s = true ->
  (forall c1 c2,
     ascii_only (String c1 (String c2 "")) = true ->
     slice_last2 (s ++ String c1 (String c2 "")) = String c1 (String c2 "")) /\
  ((String.length s <= 2)%nat -> slice_last2 s = s).
Proof.
  intros _. split.
  - intros c1 c2 _. unfold slice_last2. rewrite length_append. cbn [String.length].
    replace (String.length s + 2 - 2)%nat with (String.length s) by lia.
    rewrite substring_after. reflexivity.
  - intros Hshort. unfold slice_last2.
    destruct s as [|c1 [|c2 [|c3 s]]]; try reflexivity. cbn in Hshort. lia.
Qed.

Lemma slice_last2_keeps_the_tail_witness :
  slice_last2 "EMP001" = "01" /\ slice_last2 "E" = "E".
Proof.
  destruct (slice_last2_keeps_the_tail "EMP0" eq_refl) as (Hlast & _).
  destruct (slice_last2_keeps_the_tail "E" eq_refl) as (_ & Hshort).
  split.
  - apply (Hlast "0"%char "1"%char). reflexivity.
  - apply Hshort. cbn. lia.
Defined.

(** ** The select box *)

Lemma count_option_nodes (opts : list (string * string)) :
  list_sum (List.map (count_tag "option") (List.map Select.option_node opts))
    = List.length opts.
Proof.
  induction opts as [|o opts IH]; [reflexivity|].
  change (count_tag "option" (Select.option_node o)
          + list_sum (List.map (count_tag "option") (List.map Select.option_node opts))
          = S (List.length opts))%nat.
  rewrite IH. reflexivity.
Qed.

(** X22. What the select box lists.  Without children and without an
    [options] array it has the single entry No options available.  With an
    [options] array it has one entry per element, so an empty array gives a
    box with no entry at all, not the fallback.  Children, when given, are
    listed instead of the options. *)
Theorem select_lists_options_or_fallback (label error : option string) :
  (count_tag "option" (Select.render label error None None) = 1%nat /\
   In "No options available" (texts (Select.render label error None None))) /\
  (forall opts,
     count_tag "option" (Select.render label error (Some opts) None) = List.length opts) /\
  (forall opts children,
     Select.content opts (Some children) = children).
Proof.
  repeat apply conj.
  - unfold Select.render. destruct (Select.shown label), (Select.shown error); reflexivity.
  - unfold Select.render.
    destruct (Select.shown label), (Select.shown error); cbn; auto.
  - intros opts. unfold Select.render, Select.content.
    destruct (Select.shown label), (Select.shown error); cbn;
      rewrite count_option_nodes; lia.
  - reflexivity.
Qed.

(** ** The risk zone chart *)

(** X23. The chart reads three long labels as keys, which are not the keys
    of the type it declares for [data]: for every object of that type, all
    three slices are zero, the total is zero, and every share is shown as
    [0%]. *)
Theorem chart_of_declared_type_is_empty
    (safe_zone low_risk_zone medium_risk_zone high_risk_zone : Q) :
  let data := RiskZoneChart.of_declared_type
                safe_zone low_risk_zone medium_risk_zone high_risk_zone in
  RiskZoneChart.legend data =
    [ ("Low Risk Zone (Green)", 0%Q, "0%");
      ("Medium Risk Zone (Orange)", 0%Q, "0%");
      ("High Risk Zone (Red)", 0%Q, "0%") ] /\
  RiskZoneChart.total data = 0%Q.
Proof.
  intros data.
  assert (Hlow : data !! "Low Risk Zone (Green)" = None) by reflexivity.
  assert (Hmedium : data !! "Medium Risk Zone (Orange)" = None) by reflexivity.
  assert (Hhigh : data !! "High Risk Zone (Red)" = None) by reflexivity.
  clearbody data.
  unfold RiskZoneChart.legend, RiskZoneChart.share_text, RiskZoneChart.total,
    RiskZoneChart.chartData.
  rewrite Hlow, Hmedium, Hhigh. split; reflexivity.
Qed.

(** ** Refreshing and training *)

(** X26. The Refresh Data button asks again for what is on the screen:
    always the high-risk list, then the prediction when a result is shown,
    then the history when an employee id is entered, in this order.  Each of
    these handles its own failure, so the error message of the refresh
    itself is never logged. *)
Theorem refresh_repeats_what_is_shown
    (env : Env) (ls : gmap string string) (s : PredictionsDashboard.State) :
  let r := run (PredictionsDashboard.refreshAllData env) s ls in
  let listed := storage_effect (api_getHighRiskPredictions (apiClient env)) ls in
  let predicted :=
    match PredictionsDashboard.predictionResult s with
    | Some _ =>
        storage_effect
          (api_predictEmployeeTurnover (apiClient env)
             (PredictionsDashboard.predictionData env (PredictionsDashboard.formData s)))
          listed
    | None => listed
    end in
  requests (trace (world r)) =
    ([EvApiCall "getHighRiskPredictions"]
     ++ match PredictionsDashboard.predictionResult s with
        | Some _ => [EvApiCall "predictEmployeeTurnover"]
        | None => []
        end
     ++ if String.eqb (PredictionsDashboard.employeeId s) "" then []
        else [EvFetch (EmployeesDashboard.authorized "GET"
                         ("http://localhost:8000/api/v1/predictions/employee/"
                            ++ PredictionsDashboard.employeeId s)
                         (predicted !! "token"))])%list /\
  ~ In "Error refreshing data:" (console_errors (trace (world r))).
Proof.
  destruct s as [shown high result busy tab id form].
  unfold PredictionsDashboard.refreshAllData, PredictionsDashboard.fetchHighRiskEmployees,
    PredictionsDashboard.predictTurnover, PredictionsDashboard.fetchEmployeePredictions.
  destruct result as [result|]; destruct (String.eqb id "") eqn:Hid;
    autounfold with handlers; step; rewrite ?Hid; exec;
    (split; [reflexivity | cbn; intuition discriminate]).
Qed.

(** X27. The two ways the Train Models button ends.  When the training call
    resolves, its result is shown and the system status is requested again;
    when it rejects, the fixed demo result is shown in its place, the status
    is not requested and stays as it was. *)
Theorem training_outcomes
    (env : Env) (ls : gmap string string) (s : AdminDashboard.State) :
  let r := run (AdminDashboard.trainModels env) s ls in
  match settles (api_trainModels (apiClient env)) with
  | Normal result =>
      AdminDashboard.trainingResult (state r) = Some result /\
      requests (trace (world r)) = [EvApiCall "trainModels"; EvApiCall "getSystemStatus"] /\
      is_Some (AdminDashboard.systemStatus (state r))
  | Throw _ =>
      AdminDashboard.trainingResult (state r) = Some (AdminDashboard.demo_trainingResult env) /\
      requests (trace (world r)) = [EvApiCall "trainModels"] /\
      AdminDashboard.systemStatus (state r) = AdminDashboard.systemStatus s
  end.
Proof.
  unfold AdminDashboard.trainModels, AdminDashboard.fetchSystemStatus.
  exec; repeat split; eauto.
Qed.

(** X28. The employee details and the prediction history take any body
    that parses for data, whatever the status of the response: when every
    request is answered with the same status and body, an error body
    included, that body is stored as the employee, as the employee's
    predictions and as the prediction history, and no error is logged. *)
Theorem error_bodies_are_stored_as_data
    (env : Env) (ls : gmap string string) (status : Z) (data : gmap string Json)
    (employeeId : string) :
  (forall q, fetch_reply env q = Response status (Some (JObj data))) ->
  let details := run (EmployeesDashboard.fetchEmployeeDetails env employeeId)
                   EmployeesDashboard.initial ls in
  let history := run (PredictionsDashboard.fetchEmployeePredictions env employeeId)
                   PredictionsDashboard.initial ls in
  EmployeesDashboard.selectedEmployee (state details) = Some (JObj data) /\
  EmployeesDashboard.employeePredictions (state details) = JObj data /\
  console_errors (trace (world details)) = [] /\
  PredictionsDashboard.predictions (state history) = JObj data /\
  console_errors (trace (world history)) = [].
Proof.
  intros Hall details history. subst details history.
  unfold EmployeesDashboard.fetchEmployeeDetails,
    PredictionsDashboard.fetchEmployeePredictions.
  exec_answered Hall. repeat split; reflexivity.
Qed.

Lemma error_bodies_are_stored_as_data_witness :
  PredictionsDashboard.predictions
    (state (run (PredictionsDashboard.fetchEmployeePredictions Samples.env_forbidden "EMP7")
              PredictionsDashboard.initial ∅))
    = obj [("detail", JStr "Not enough permissions")].
Proof.
  destruct (error_bodies_are_stored_as_data Samples.env_forbidden ∅ 403%Z
              (list_to_map [("detail", JStr "Not enough permissions")]) "EMP7"
              (fun _ => eq_refl)) as (_ & _ & _ & Hhistory & _).
  exact Hhistory.
Defined.
